(** * VideoProductionTracker: the record models, the statistics aggregator
      and the form handlers, embedded from [database.py], [models.py] and
      [app.py].

    Conventions of the embedding.
    - Python [str] is [string]; a character is one of the 256 code points of
      [ascii].
    - Python [int] is [Z]; Python [float] is an exact rational [Q], so
      rounding error, [inf] and [nan] are outside the model.  Where a
      computed float is compared with a literal, the statement uses [==]
      (Qeq).
    - A [dict] used as a map is a [gmap string _]; a [set] is a [gset].
    - Code that can raise returns a [result]; a method that mutates [self]
      returns the outcome together with the object as it is afterwards.
    - Timestamps are [option string]: [None], or ISO-8601 text as produced
      by [isoformat()].  The clock reading is an explicit argument [now]. *)

From Stdlib Require Import ZArith QArith Qround String Ascii List Sorted Permutation Lia.
From Stdlib Require OrderedTypeEx.
From stdpp Require Import base option list gmap strings fin_maps fin_sets sorting.

Local Open Scope string_scope.
Local Open Scope Z_scope.

(** ** Python-level helpers *)

Module Py.

Inductive exn : Type :=
| ValidationError (msg : string)
| KeyError (key : string)
| ValueError
| TypeError (msg : string)
| OverflowError (msg : string).

Inductive result (A : Type) : Type :=
| Ok (a : A)
| Raise (e : exn).
Arguments Ok {A} a.
Arguments Raise {A} e.

#[global] Instance result_ret : MRet result := fun A a => Ok a.
#[global] Instance result_bind : MBind result := fun A B f m =>
  match m with
  | Ok a => f a
  | Raise e => Raise e
  end.



(** [x in l] for a list of strings. *)
Definition str_in (x : string) (l : list string) : bool :=
  existsb (String.eqb x) l.

(** [l.index(x)]: the first position of [x], [ValueError] when absent. *)
Fixpoint list_index (x : string) (l : list string) : result nat :=
  match l with
  | [] => Raise ValueError
  | y :: l' => if String.eqb y x then Ok O else i ← list_index x l'; Ok (S i)
  end.

(** [d[k] += v]: [KeyError] when [k] is not a key of [d]. *)
Definition dict_iadd {V} (add : V -> V -> V) (k : string) (v : V)
    (d : gmap string V) : result (gmap string V) :=
  match d !! k with
  | Some x => Ok (<[k := add x v]> d)
  | None => Raise (KeyError k)
  end.

(** [{k: v0 for k in keys}]. *)
Definition dict_from_keys {V} (keys : list string) (v0 : V) : gmap string V :=
  foldl (fun d k => <[k := v0]> d) ∅ keys.

(** [sum(xs)] over floats: starts from 0 and adds from the left. *)
Definition sum (xs : list Q) : Q := foldl Qplus 0%Q xs.

Definition Qltb (a b : Q) : bool := negb (Qle_bool b a).

(** [for x in xs: s = body(s, x)], where the body may raise. *)
Fixpoint for_ {A S} (body : S -> A -> result S) (xs : list A) (s : S) : result S :=
  match xs with
  | [] => Ok s
  | x :: xs' => s' ← body s x; for_ body xs' s'
  end.

(** [try: body  except ValueError: handler] *)
Definition try_except_ValueError {A} (body handler : result A) : result A :=
  match body with
  | Ok a => Ok a
  | Raise ValueError => handler
  | Raise e => Raise e
  end.

(** The scalars that the records keep in their storage dictionaries. *)
Inductive value : Type :=
| VNone
| VStr (s : string)
| VInt (z : Z)
| VFloat (q : Q).

(** Truth value of an object ([not v] is its negation). *)
Definition truthy (v : value) : bool :=
  match v with
  | VNone => false
  | VStr s => negb (String.eqb s "")
  | VInt z => negb (z =? 0)
  | VFloat q => negb (Qeq_bool q 0)
  end.

Definition of_opt_str (o : option string) : value :=
  match o with Some s => VStr s | None => VNone end.

Definition of_opt_int (o : option Z) : value :=
  match o with Some z => VInt z | None => VNone end.

(** [d[k]] *)
Definition dict_getitem {V} (d : gmap string V) (k : string) : result V :=
  match d !! k with
  | Some v => Ok v
  | None => Raise (KeyError k)
  end.

(** [str.isspace] on one character, for the code points below 256. *)
Definition isspace (c : ascii) : bool :=
  let n := N_of_ascii c in
  ((9 <=? n) && (n <=? 13) || (28 <=? n) && (n <=? 32) || (n =? 133) || (n =? 160))%N.

Fixpoint lstrip_chars (l : list ascii) : list ascii :=
  match l with
  | c :: l' => if isspace c then lstrip_chars l' else l
  | [] => []
  end.

(** [s.strip()] *)
Definition strip (s : string) : string :=
  string_of_list_ascii
    (rev (lstrip_chars (rev (lstrip_chars (list_ascii_of_string s))))).

(** [len(s)] *)
Definition len (s : string) : Z := Z.of_nat (String.length s).

(** Nearest integer, ties to the even one. *)
Definition round_half_even (q : Q) : Z :=
  let f := Qfloor q in
  match ((q - inject_Z f) ?= (1 # 2))%Q with
  | Lt => f
  | Gt => f + 1
  | Eq => if Z.even f then f else f + 1
  end.

(** [round(x, 2)] *)
Definition round2 (x : Q) : Q := Qmake (round_half_even (x * 100)) 100.

(** [sorted(xs, key=key, reverse=True)] for string keys.  Python's sort is
    stable, and with [reverse=True] elements with equal keys still keep
    their original order; that determines the result, which is computed
    here by insertion from the right. *)
Section Sorted.
Context {A : Type} (key : A -> string).

Fixpoint insert_reverse (x : A) (l : list A) : list A :=
  match l with
  | [] => [x]
  | y :: l' =>
      if String.ltb (key x) (key y) then y :: insert_reverse x l'
      else x :: y :: l'
  end.

Definition sorted_reverse (xs : list A) : list A := foldr insert_reverse [] xs.
End Sorted.

(** [xs[:limit]]: a negative [limit] counts from the end. *)
Definition slice_to {A} (xs : list A) (limit : Z) : list A :=
  if 0 <=? limit then take (Z.to_nat limit) xs
  else take (Z.to_nat (Z.of_nat (length xs) + limit)) xs.

End Py.
Import Py.

(** ** database.py *)

Module Database.

Module Video.

Record t : Type := {
  id : string;
  type : string;
  status : string;
  created_at : option string;
  updated_at : option string
}.

Definition VALID_STATUSES : list string :=
  ["Conceptualization & Script"; "VO"; "Visuals"; "Animations & Editing"; "Final"].
Definition VALID_TYPES : list string := ["Brand"; "System"; "Testimonial"; "About"].
Definition TESTIMONIAL_STATUSES : list string :=
  ["Conceptualization & Script"; "Avatar Creation"; "Avatar Video Generation";
   "VO"; "Visuals"; "Animations & Editing"; "Final"].

Definition get_progress_percentage (self : t) : result Q :=
  try_except_ValueError
    (let statuses :=
       if String.eqb (type self) "Testimonial" then TESTIMONIAL_STATUSES
       else VALID_STATUSES in
     status_index ← list_index (status self) statuses;
     Ok ((inject_Z (Z.of_nat status_index + 1)
            / inject_Z (Z.of_nat (length statuses))) * 100)%Q)
    (Ok 0%Q).

Definition is_completed (self : t) : bool := String.eqb (status self) "Final".

End Video.

Module Cost.

Record t : Type := {
  id : Z;
  type : string;
  name : option string;
  amount : Q;
  currency : string;
  notes : string;
  created_at : option string
}.

Definition VALID_TYPES : list string := ["Tool"; "Freelancer"; "Other"].
Definition VALID_CURRENCIES : list string := ["USD"; "PKR"].

End Cost.

Module Settings.

Record t : Type := {
  id : Z;
  key : string;
  value : string;
  updated_at : option string
}.

End Settings.

End Database.

(** ** models.py *)

Module Models.

(** *** class Video.  [ProjectStats] and [DataManager] call this class
    [VideoModel], the name that [from_dict] is annotated to return. *)
Module Video.

Record t : Type := {
  id : string;
  type : string;
  status : string;
  created_at : option string;
  updated_at : option string
}.

Definition VALID_STATUSES : list string := ["Script"; "VO"; "Visuals"; "Editing"; "Final"].
Definition VALID_TYPES : list string := ["Brand"; "System"; "Testimonial"].

Definition _validate_id (id : value) : result string :=
  match id with
  | VStr s =>
      if negb (truthy id) then Raise (ValidationError "Video ID must be a non-empty string")
      else
        let id := strip s in
        if negb (truthy (VStr id)) then
          Raise (ValidationError "Video ID cannot be empty or only whitespace")
        else if 100 <? len id then
          Raise (ValidationError "Video ID cannot exceed 100 characters")
        else Ok id
  | _ => Raise (ValidationError "Video ID must be a non-empty string")
  end.

Definition _validate_type (type : value) : result string :=
  let err := ValidationError
    ("Video type must be one of: " ++ String.concat ", " VALID_TYPES) in
  match type with
  | VStr s => if negb (truthy type) || negb (str_in s VALID_TYPES) then Raise err else Ok s
  | _ => Raise err
  end.

Definition _validate_status (status : value) : result string :=
  let err := ValidationError
    ("Video status must be one of: " ++ String.concat ", " VALID_STATUSES) in
  match status with
  | VStr s => if negb (truthy status) || negb (str_in s VALID_STATUSES) then Raise err else Ok s
  | _ => Raise err
  end.

(** [__init__(self, id, type, status='Script')].  The two timestamp
    columns are not assigned: on the new object they read [None]. *)
Definition __init__ (id type status : value) : result t :=
  id ← _validate_id id;
  type ← _validate_type type;
  status ← _validate_status status;
  Ok {| id := id; type := type; status := status;
        created_at := None; updated_at := None |}.

Definition init_params : list string := ["id"; "type"; "status"].

(** The call [cls(k1=v1, ...)]: binding the keyword arguments to the
    parameters of [__init__] comes first and raises [TypeError] for a
    keyword that is not a parameter, or for a required parameter that is
    not given. *)
Definition call (kwargs : list (string * value)) : result t :=
  match List.find (fun kv => negb (str_in (fst kv) init_params)) kwargs with
  | Some kv =>
      Raise (TypeError ("__init__() got an unexpected keyword argument '" ++ fst kv ++ "'"))
  | None =>
      let arg k := snd <$> List.find (fun kv => String.eqb (fst kv) k) kwargs in
      match arg "id", arg "type" with
      | Some id, Some type => __init__ id type (default (VStr "Script") (arg "status"))
      | _, _ => Raise (TypeError "__init__() missing required positional arguments")
      end
  end.

Definition update_status (self : t) (new_status : value) (now : string)
    : result unit * t :=
  match _validate_status new_status with
  | Raise e => (Raise e, self)
  | Ok s =>
      (Ok tt, {| id := id self; type := type self; status := s;
                 created_at := created_at self; updated_at := Some now |})
  end.

Definition get_progress_percentage (self : t) : result Q :=
  try_except_ValueError
    (status_index ← list_index (status self) VALID_STATUSES;
     Ok ((inject_Z (Z.of_nat status_index + 1)
            / inject_Z (Z.of_nat (length VALID_STATUSES))) * 100)%Q)
    (Ok 0%Q).

Definition is_completed (self : t) : bool := String.eqb (status self) "Final".

Definition to_dict (self : t) : gmap string value :=
  <["id" := VStr (id self)]>
  (<["type" := VStr (type self)]>
  (<["status" := VStr (status self)]>
  (<["created_at" := of_opt_str (created_at self)]>
  (<["updated_at" := of_opt_str (updated_at self)]> ∅)))).

Definition from_dict (data : gmap string value) : result t :=
  id ← dict_getitem data "id";
  type ← dict_getitem data "type";
  call [("id", id); ("type", type);
        ("status", default (VStr "Script") (data !! "status"));
        ("created_at", default VNone (data !! "created_at"));
        ("updated_at", default VNone (data !! "updated_at"))].

End Video.

(** *** class CostModel *)
Module CostModel.

Record t : Type := {
  id : option Z;
  type : string;
  amount : Q;
  currency : string;
  notes : string;
  created_at : option string
}.

Definition VALID_TYPES : list string := ["Tool"; "Freelancer"; "Other"].
Definition VALID_CURRENCIES : list string := ["USD"; "PKR"].

(** The least absolute value of an [int] that [float] cannot convert. *)
Definition FLOAT_INT_LIMIT : Z := 2 ^ 1024 - 2 ^ 970.

Definition _validate_type (type : value) : result string :=
  let err := ValidationError
    ("Cost type must be one of: " ++ String.concat ", " VALID_TYPES) in
  match type with
  | VStr s => if negb (truthy type) || negb (str_in s VALID_TYPES) then Raise err else Ok s
  | _ => Raise err
  end.

Definition _validate_currency (currency : value) : result string :=
  let err := ValidationError
    ("Currency must be one of: " ++ String.concat ", " VALID_CURRENCIES) in
  match currency with
  | VStr s =>
      if negb (truthy currency) || negb (str_in s VALID_CURRENCIES) then Raise err else Ok s
  | _ => Raise err
  end.

Section Builtins.
(** [float(s)] for a [str]: [None] when it raises [ValueError].  The
    grammar of numeric literals is left open. *)
Variable float_of_str : string -> option Q.
(** [str(v)] for an object that is not a [str]. *)
Variable str_of : value -> string.

(** [float(amount)].  A [str] that is no number raises [ValueError] and
    [None] raises [TypeError].  An [int] is rounded to the nearest double,
    and [OverflowError] is raised when that is beyond the largest double:
    from [FLOAT_INT_LIMIT] on in absolute value, the midpoint between the
    largest double [2^1024 - 2^971] and [2^1024].  Below the limit the
    number is kept as it is: the rounding is monotone and exact up to
    [2^53], so the comparisons with 0 and 1,000,000 made on the result
    come out the same. *)
Definition float (amount : value) : result Q :=
  match amount with
  | VFloat q => Ok q
  | VInt z =>
      if Z.abs z <? FLOAT_INT_LIMIT then Ok (inject_Z z)
      else Raise (OverflowError "int too large to convert to float")
  | VStr s =>
      match float_of_str s with
      | Some q => Ok q
      | None => Raise ValueError
      end
  | VNone => Raise (TypeError "float() argument must be a string or a real number, not 'NoneType'")
  end.

(** The handler is [except (ValueError, TypeError)]: any other exception
    of [float], [OverflowError] that is, leaves the method as it is. *)
Definition _validate_amount (amount : value) : result Q :=
  match float amount with
  | Raise ValueError | Raise (TypeError _) =>
      Raise (ValidationError "Cost amount must be a valid number")
  | Raise e => Raise e
  | Ok amount =>
      if Qltb amount 0 then Raise (ValidationError "Cost amount cannot be negative")
      else if Qltb 1000000 amount then
        Raise (ValidationError "Cost amount cannot exceed 1,000,000")
      else Ok (round2 amount)
  end.

Definition _validate_notes (notes : value) : result string :=
  let notes :=
    match notes with
    | VStr s => s
    | _ => if truthy notes then str_of notes else ""
    end in
  if 500 <? len notes then Raise (ValidationError "Notes cannot exceed 500 characters")
  else Ok (strip notes).

(** [__init__(self, id, type, amount, currency, notes, created_at)];
    [id] and [created_at] are stored without validation and are typed as
    annotated ([Optional[int]], [Optional[str]]). *)
Definition __init__ (id : option Z) (type amount currency notes : value)
    (created_at : option string) (now : string) : result t :=
  type ← _validate_type type;
  amount ← _validate_amount amount;
  currency ← _validate_currency currency;
  notes ← _validate_notes notes;
  Ok {| id := id; type := type; amount := amount; currency := currency;
        notes := notes;
        created_at :=
          if truthy (of_opt_str created_at) then created_at else Some now |}.

Definition to_dict (self : t) : gmap string value :=
  <["id" := of_opt_int (id self)]>
  (<["type" := VStr (type self)]>
  (<["amount" := VFloat (amount self)]>
  (<["currency" := VStr (currency self)]>
  (<["notes" := VStr (notes self)]>
  (<["created_at" := of_opt_str (created_at self)]> ∅))))).

(** A stored [id] or [created_at] of another type than the annotated
    one is outside the model: the conversion below raises [TypeError]
    where Python would keep the object as it is. *)
Definition as_opt_int (v : value) : result (option Z) :=
  match v with
  | VNone => Ok None
  | VInt z => Ok (Some z)
  | _ => Raise (TypeError "id: expected Optional[int]")
  end.

Definition as_opt_str (v : value) : result (option string) :=
  match v with
  | VNone => Ok None
  | VStr s => Ok (Some s)
  | _ => Raise (TypeError "created_at: expected Optional[str]")
  end.

Definition from_dict (data : gmap string value) (now : string) : result t :=
  id ← as_opt_int (default VNone (data !! "id"));
  type ← dict_getitem data "type";
  amount ← dict_getitem data "amount";
  created_at ← as_opt_str (default VNone (data !! "created_at"));
  __init__ id type amount
    (default (VStr "USD") (data !! "currency"))
    (default (VStr "") (data !! "notes"))
    created_at now.
End Builtins.

End CostModel.

(** *** class ProjectStats *)
Module ProjectStats.

Record t : Type := {
  videos : list Video.t;
  costs : list CostModel.t;
  budget : Q
}.

Record BudgetStatus : Type := {
  bs_budget : Q;
  spent : Q;
  remaining : Q;
  percentage_used : Q;
  over_budget : bool;
  near_budget : bool
}.

Definition get_total_videos (self : t) : Z := Z.of_nat (length (videos self)).

Definition get_completed_videos (self : t) : Z :=
  Z.of_nat (length (List.filter Video.is_completed (videos self))).

Definition get_pending_videos (self : t) : Z :=
  get_total_videos self - get_completed_videos self.

Definition get_completion_rate (self : t) : Q :=
  let total := get_total_videos self in
  if total =? 0 then 0%Q
  else ((inject_Z (get_completed_videos self) / inject_Z total) * 100)%Q.

Definition get_status_distribution (self : t) : result (gmap string Z) :=
  let distribution := dict_from_keys Video.VALID_STATUSES 0 in
  for_ (fun distribution video => dict_iadd Z.add (Video.status video) 1 distribution)
       (videos self) distribution.

Definition get_type_distribution (self : t) : result (gmap string Z) :=
  let distribution := dict_from_keys Video.VALID_TYPES 0 in
  for_ (fun distribution video => dict_iadd Z.add (Video.type video) 1 distribution)
       (videos self) distribution.

Definition get_total_costs_by_currency (self : t) : result (gmap string Q) :=
  for_ (fun totals cost =>
          let totals :=
            match totals !! CostModel.currency cost with
            | None => <[CostModel.currency cost := 0%Q]> totals
            | Some _ => totals
            end in
          dict_iadd Qplus (CostModel.currency cost) (CostModel.amount cost) totals)
       (costs self) ∅.

Definition get_cost_distribution_by_type (self : t) : result (gmap string Q) :=
  let distribution := dict_from_keys CostModel.VALID_TYPES 0%Q in
  for_ (fun distribution cost =>
          if String.eqb (CostModel.currency cost) "USD" then
            dict_iadd Qplus (CostModel.type cost) (CostModel.amount cost) distribution
          else Ok distribution)
       (costs self) distribution.

Definition get_budget_status (self : t) : BudgetStatus :=
  let usd_spent :=
    sum (CostModel.amount <$>
           List.filter (fun c => String.eqb (CostModel.currency c) "USD") (costs self)) in
  let remaining := (budget self - usd_spent)%Q in
  {| bs_budget := budget self;
     spent := usd_spent;
     remaining := remaining;
     percentage_used :=
       if Qltb 0 (budget self) then (usd_spent / budget self * 100)%Q else 0%Q;
     over_budget := Qltb remaining 0;
     near_budget :=
       if Qltb 0 (budget self) then Qltb remaining (budget self * (1 # 10)) else false |}.

Definition get_average_cost_per_video (self : t) : result (gmap string Q) :=
  let total_videos := get_total_videos self in
  if total_videos =? 0 then Ok (<["USD" := 0%Q]> (<["PKR" := 0%Q]> ∅))
  else
    cost_totals ← get_total_costs_by_currency self;
    Ok (<["USD" := (default 0%Q (cost_totals !! "USD") / inject_Z total_videos)%Q]>
       (<["PKR" := (default 0%Q (cost_totals !! "PKR") / inject_Z total_videos)%Q]> ∅)).

Record RecentActivity : Type := {
  ra_videos : list (gmap string value);
  ra_costs : list (gmap string value)
}.

(** [x.created_at or ''] *)
Definition created_key (created_at : option string) : string :=
  if truthy (of_opt_str created_at) then default "" created_at else "".

Definition get_recent_activity (self : t) (limit : Z) : RecentActivity :=
  let recent_videos :=
    slice_to (sorted_reverse (fun v => created_key (Video.created_at v)) (videos self))
             limit in
  let recent_costs :=
    slice_to (sorted_reverse (fun c => created_key (CostModel.created_at c)) (costs self))
             limit in
  {| ra_videos := Video.to_dict <$> recent_videos;
     ra_costs := CostModel.to_dict <$> recent_costs |}.

(** The default of the parameter [limit]. *)
Definition default_limit : Z := 5.

Record Snapshot : Type := {
  total_videos : Z;
  completed_videos : Z;
  pending_videos : Z;
  completion_rate : Q;
  status_distribution : gmap string Z;
  type_distribution : gmap string Z;
  total_costs_by_currency : gmap string Q;
  cost_distribution_by_type : gmap string Q;
  budget_status : BudgetStatus;
  average_cost_per_video : gmap string Q
}.

Definition to_dict (self : t) : result Snapshot :=
  let total_videos := get_total_videos self in
  let completed_videos := get_completed_videos self in
  let pending_videos := get_pending_videos self in
  let completion_rate := get_completion_rate self in
  status_distribution ← get_status_distribution self;
  type_distribution ← get_type_distribution self;
  total_costs_by_currency ← get_total_costs_by_currency self;
  cost_distribution_by_type ← get_cost_distribution_by_type self;
  let budget_status := get_budget_status self in
  average_cost_per_video ← get_average_cost_per_video self;
  Ok {| total_videos := total_videos;
        completed_videos := completed_videos;
        pending_videos := pending_videos;
        completion_rate := completion_rate;
        status_distribution := status_distribution;
        type_distribution := type_distribution;
        total_costs_by_currency := total_costs_by_currency;
        cost_distribution_by_type := cost_distribution_by_type;
        budget_status := budget_status;
        average_cost_per_video := average_cost_per_video |}.

End ProjectStats.

(** *** class DataManager (the operations on videos)

    [self.db] is a key-value store of JSON texts.  [json.dumps] and
    [json.loads] are inverse to each other on lists of storage
    dictionaries, so the store keeps the list itself; [None] is a missing
    key. *)
Module DataManager.

Record t : Type := {
  videos : option (list (gmap string value));
  costs : option (list (gmap string value))
}.

Definition get_videos (self : t) : list Video.t :=
  let videos_data := default [] (videos self) in
  let body :=
    for_ (fun videos video_dict =>
            match Video.from_dict video_dict with
            | Ok video => Ok (videos ++ [video])%list
            | Raise (ValidationError _) => Ok videos
            | Raise e => Raise e
            end)
         videos_data [] in
  match body with
  | Ok videos => videos
  | Raise _ => []
  end.

Definition save_videos (self : t) (videos : list Video.t) : t * bool :=
  let videos_data := Video.to_dict <$> videos in
  ({| videos := Some videos_data; costs := costs self |}, true).

Definition add_video (self : t) (video : Video.t) : t * bool :=
  let videos := get_videos self in
  if existsb (fun v => String.eqb (Video.id v) (Video.id video)) videos then
    (self, false)
  else save_videos self (videos ++ [video])%list.

(** [update_video(video_id, **kwargs)] with the optional keywords
    [status] and [type].  The loop stops at the first video with the id;
    a [ValidationError] of either check ends in the handler, which
    returns [False] without saving. *)
Fixpoint update_loop (video_id : string) (status type : option value) (now : string)
    (videos : list Video.t) : result (option (list Video.t)) :=
  match videos with
  | [] => Ok None
  | video :: rest =>
      if String.eqb (Video.id video) video_id then
        video ← match status with
                | Some new_status =>
                    _ ← fst (Video.update_status video new_status now);
                    Ok (snd (Video.update_status video new_status now))
                | None => Ok video
                end;
        video ← match type with
                | Some new_type =>
                    ty ← Video._validate_type new_type;
                    Ok {| Video.id := Video.id video; Video.type := ty;
                          Video.status := Video.status video;
                          Video.created_at := Video.created_at video;
                          Video.updated_at := Some now |}
                | None => Ok video
                end;
        Ok (Some (video :: rest))
      else
        found ← update_loop video_id status type now rest;
        Ok (option_map (cons video) found)
  end.

Definition update_video (self : t) (video_id : string) (status type : option value)
    (now : string) : t * bool :=
  match update_loop video_id status type now (get_videos self) with
  | Ok (Some videos) => save_videos self videos
  | Ok None => (self, false)
  | Raise _ => (self, false)
  end.

Definition delete_video (self : t) (video_id : string) : t * bool :=
  let videos := get_videos self in
  let original_count := length videos in
  let videos := List.filter (fun v => negb (String.eqb (Video.id v) video_id)) videos in
  if (length videos <? original_count)%nat then save_videos self videos
  else (self, false).

Section Builtins.
(** [float(s)] for a [str] and [str(v)] for an object that is not a [str],
    as in [CostModel]; [now] is the clock reading that a reconstructed
    cost without a creation time gets. *)
Variable float_of_str : string -> option Q.
Variable str_of : value -> string.

Definition get_costs (self : t) (now : string) : list CostModel.t :=
  let costs_data := default [] (costs self) in
  let body :=
    for_ (fun costs cost_dict =>
            match CostModel.from_dict float_of_str str_of cost_dict now with
            | Ok cost => Ok (costs ++ [cost])%list
            | Raise (ValidationError _) => Ok costs
            | Raise e => Raise e
            end)
         costs_data [] in
  match body with
  | Ok costs => costs
  | Raise _ => []
  end.

Definition save_costs (self : t) (costs : list CostModel.t) : t * bool :=
  let costs_data := CostModel.to_dict <$> costs in
  ({| videos := videos self; costs := Some costs_data |}, true).

(** [max(ids, default=0)] *)
Definition max_default (ids : list Z) : Z :=
  match ids with
  | [] => 0
  | z :: ids' => foldl Z.max z ids'
  end.

(** [cost.id = max_id + 1] when [cost.id is None]: the cost object as
    [add_cost] appends it. *)
Definition with_generated_id (costs : list CostModel.t) (cost : CostModel.t) : CostModel.t :=
  match CostModel.id cost with
  | None =>
      let max_id := max_default (omap CostModel.id costs) in
      {| CostModel.id := Some (max_id + 1); CostModel.type := CostModel.type cost;
         CostModel.amount := CostModel.amount cost;
         CostModel.currency := CostModel.currency cost;
         CostModel.notes := CostModel.notes cost;
         CostModel.created_at := CostModel.created_at cost |}
  | Some _ => cost
  end.

Definition add_cost (self : t) (cost : CostModel.t) (now : string) : t * bool :=
  let costs := get_costs self now in
  let cost := with_generated_id costs cost in
  save_costs self (costs ++ [cost])%list.

Definition delete_cost (self : t) (cost_id : Z) (now : string) : t * bool :=
  let costs := get_costs self now in
  let original_count := length costs in
  let costs :=
    List.filter (fun c => negb (bool_decide (CostModel.id c = Some cost_id))) costs in
  if (length costs <? original_count)%nat then save_costs self costs
  else (self, false).
End Builtins.

End DataManager.

End Models.

(** ** app.py

    The database session is the pair of tables [videos] and [costs]; a
    query or a commit is taken to succeed, so the handlers' generic
    [except Exception] branches (log, flash, roll back) are not reached.
    A handler returns the database as it is afterwards and the message it
    flashes, as [(message, category)]; every path redirects. *)

Module App.

Record DB : Type := {
  videos : list Database.Video.t;
  costs : list Database.Cost.t
}.

Definition VIDEO_STATUSES : list string := Database.Video.VALID_STATUSES.
Definition VIDEO_TYPES : list string := Database.Video.VALID_TYPES.
Definition COST_TYPES : list string := Database.Cost.VALID_TYPES.
Definition CURRENCIES : list string := Database.Cost.VALID_CURRENCIES.

(** [Video.query.filter_by(id=video_id).first()] *)
Definition query_video (db : DB) (video_id : string) : option Database.Video.t :=
  List.find (fun v => String.eqb (Database.Video.id v) video_id) (videos db).

(** The row that [query_video] returned is written back in its place. *)
Fixpoint update_first (video_id : string) (video : Database.Video.t)
    (rows : list Database.Video.t) : list Database.Video.t :=
  match rows with
  | [] => []
  | v :: rows' =>
      if String.eqb (Database.Video.id v) video_id then video :: rows'
      else v :: update_first video_id video rows'
  end.

(** The figures that [index] hands to the template, next to the records
    and the budget themselves. *)
Record Dashboard : Type := {
  total_videos : Z;
  completed_videos : Z;
  pending_videos : Z;
  total_costs_usd : Q;
  total_costs_pkr : Q;
  status_counts : gmap string Z;
  type_counts : gmap string Z
}.

(** [len([v for v in videos if v.status == status])] *)
Definition count_status (videos : list Database.Video.t) (status : string) : Z :=
  Z.of_nat (length (List.filter (fun v => String.eqb (Database.Video.status v) status) videos)).

Definition index (db : DB) : Dashboard :=
  let videos := videos db in
  let costs := costs db in
  let total_videos := Z.of_nat (length videos) in
  let completed_videos :=
    Z.of_nat (length (List.filter
      (fun v => String.eqb (Database.Video.status v) "Final") videos)) in
  let all_statuses : gset string :=
    list_to_set (VIDEO_STATUSES ++ Database.Video.TESTIMONIAL_STATUSES) in
  {| total_videos := total_videos;
     completed_videos := completed_videos;
     pending_videos := total_videos - completed_videos;
     total_costs_usd :=
       sum (Database.Cost.amount <$>
              List.filter (fun c => String.eqb (Database.Cost.currency c) "USD") costs);
     total_costs_pkr :=
       sum (Database.Cost.amount <$>
              List.filter (fun c => String.eqb (Database.Cost.currency c) "PKR") costs);
     status_counts :=
       set_fold (fun status status_counts =>
                   <[status := count_status videos status]> status_counts)
                ∅ all_statuses;
     type_counts :=
       foldl (fun type_counts vtype =>
                <[vtype := Z.of_nat (length (List.filter
                    (fun v => String.eqb (Database.Video.type v) vtype) videos))]>
                type_counts)
             ∅ VIDEO_TYPES |}.

Definition flash : Type := (string * string)%type.

(** [Video(id=..., type=..., status=...)] leaves [created_at] and
    [updated_at] to their column defaults: each column has its own
    [default=datetime.utcnow], called once per column when the row is
    inserted, so the two fields take two readings of the clock. *)
Definition add_video (form : gmap string string) (created_now updated_now : string)
    (db : DB) : DB * flash :=
  let video_id := strip (default "" (form !! "video_id")) in
  let video_type := default "" (form !! "video_type") in
  let status := default "Conceptualization & Script" (form !! "status") in
  if String.eqb video_id "" || String.eqb video_type "" then
    (db, ("Video ID and Type are required", "error"))
  else
    match query_video db video_id with
    | Some existing_video => (db, ("Video ID already exists", "error"))
    | None =>
        if negb (str_in video_type VIDEO_TYPES) then (db, ("Invalid video type", "error"))
        else
          let valid_statuses :=
            if String.eqb video_type "Testimonial" then Database.Video.TESTIMONIAL_STATUSES
            else VIDEO_STATUSES in
          if negb (str_in status valid_statuses) then (db, ("Invalid video status", "error"))
          else
            let new_video :=
              {| Database.Video.id := video_id;
                 Database.Video.type := video_type;
                 Database.Video.status := status;
                 Database.Video.created_at := Some created_now;
                 Database.Video.updated_at := Some updated_now |} in
            ({| videos := videos db ++ [new_video]; costs := costs db |},
             ("Video added successfully", "success"))
    end.

Definition update_video_status (form : gmap string string) (now : string) (db : DB)
    : DB * flash :=
  let video_id := form !! "video_id" in
  let new_status := form !! "status" in
  match video_id, new_status with
  | Some video_id, Some new_status =>
      if String.eqb video_id "" || String.eqb new_status "" then
        (db, ("Invalid request", "error"))
      else
        match query_video db video_id with
        | None => (db, ("Video not found", "error"))
        | Some video =>
            let valid_statuses :=
              if String.eqb (Database.Video.type video) "Testimonial"
              then Database.Video.TESTIMONIAL_STATUSES
              else VIDEO_STATUSES in
            if negb (str_in new_status valid_statuses) then
              (db, ("Invalid video status", "error"))
            else
              let video :=
                {| Database.Video.id := Database.Video.id video;
                   Database.Video.type := Database.Video.type video;
                   Database.Video.status := new_status;
                   Database.Video.created_at := Database.Video.created_at video;
                   Database.Video.updated_at := Some now |} in
              ({| videos := update_first video_id video (videos db); costs := costs db |},
               ("Video status updated successfully", "success"))
        end
  | _, _ => (db, ("Invalid request", "error"))
  end.

(** The integer primary key that the database gives to a new row. *)
Definition next_cost_id (db : DB) : Z :=
  1 + foldr Z.max 0 (Database.Cost.id <$> costs db).

Section Builtins.
(** [float(s)] for a [str]: [None] when it raises [ValueError]. *)
Variable float_of_str : string -> option Q.

Definition add_cost (form : gmap string string) (now : string) (db : DB) : DB * flash :=
  let cost_type := default "" (form !! "cost_type") in
  let cost_name := strip (default "" (form !! "cost_name")) in
  let amount :=
    match form !! "amount" with
    | Some s => float_of_str s
    | None => Some 0%Q
    end in
  match amount with
  | None => (db, ("Invalid amount entered", "error"))
  | Some amount =>
      let currency := default "USD" (form !! "currency") in
      let notes := strip (default "" (form !! "notes")) in
      if String.eqb cost_type "" || Qle_bool amount 0 then
        (db, ("Cost type and valid amount are required", "error"))
      else if negb (str_in cost_type COST_TYPES) then (db, ("Invalid cost type", "error"))
      else if negb (str_in currency CURRENCIES) then (db, ("Invalid currency", "error"))
      else if str_in cost_type ["Tool"; "Freelancer"] && String.eqb cost_name "" then
        (db, ("Name is required for " ++ cost_type ++ " type", "error"))
      else
        let new_cost :=
          {| Database.Cost.id := next_cost_id db;
             Database.Cost.type := cost_type;
             Database.Cost.name :=
               if str_in cost_type ["Tool"; "Freelancer"] then Some cost_name else None;
             Database.Cost.amount := amount;
             Database.Cost.currency := currency;
             Database.Cost.notes := notes;
             Database.Cost.created_at := Some now |} in
        ({| videos := videos db; costs := costs db ++ [new_cost] |},
         ("Cost entry added successfully", "success"))
  end.
End Builtins.

(** The row that [query_video] returned is deleted. *)
Fixpoint delete_first (video_id : string) (rows : list Database.Video.t)
    : list Database.Video.t :=
  match rows with
  | [] => []
  | v :: rows' =>
      if String.eqb (Database.Video.id v) video_id then rows'
      else v :: delete_first video_id rows'
  end.

Definition delete_video (form : gmap string string) (db : DB) : DB * flash :=
  match form !! "video_id" with
  | Some video_id =>
      if String.eqb video_id "" then (db, ("Invalid request", "error"))
      else
        match query_video db video_id with
        | None => (db, ("Video not found", "error"))
        | Some video =>
            ({| videos := delete_first video_id (videos db); costs := costs db |},
             ("Video deleted successfully", "success"))
        end
  | None => (db, ("Invalid request", "error"))
  end.

(** [Cost.query.filter_by(id=cost_id).first()] *)
Definition query_cost (db : DB) (cost_id : Z) : option Database.Cost.t :=
  List.find (fun c => Database.Cost.id c =? cost_id) (costs db).

Fixpoint delete_first_cost (cost_id : Z) (rows : list Database.Cost.t)
    : list Database.Cost.t :=
  match rows with
  | [] => []
  | c :: rows' =>
      if Database.Cost.id c =? cost_id then rows'
      else c :: delete_first_cost cost_id rows'
  end.

(** An integer that the SQLite database, which [app.py] falls back to,
    takes as the parameter of a query: 64 bits, signed.  For any other
    integer the query raises [OverflowError]. *)
Definition sqlite_integer (z : Z) : bool := (- 2 ^ 63 <=? z) && (z <? 2 ^ 63).

Section DeleteCost.
(** [int(s)] for a [str]: [None] when it raises [ValueError]. *)
Variable int_of_str : string -> option Z.

(** [int(request.form.get('cost_id'))] raises [TypeError] for a missing
    field and [ValueError] for a text that is no integer, and the query
    raises for an integer that the database does not take; all three end
    in the generic handler. *)
Definition delete_cost (form : gmap string string) (db : DB) : DB * flash :=
  match form !! "cost_id" ≫= int_of_str with
  | None => (db, ("Error deleting cost entry", "error"))
  | Some cost_id =>
      if negb (sqlite_integer cost_id) then (db, ("Error deleting cost entry", "error"))
      else
        match query_cost db cost_id with
        | None => (db, ("Cost entry not found", "error"))
        | Some cost =>
            ({| videos := videos db; costs := delete_first_cost cost_id (costs db) |},
             ("Cost entry deleted successfully", "success"))
        end
  end.
End DeleteCost.

(** The [settings] table is read and written by the budget functions
    only; they are modelled on that table alone. *)
Section Budget.
(** [float(s)] for a [str], [None] when it raises [ValueError]; and
    [str(x)] for a float. *)
Variable float_of_str : string -> option Q.
Variable str_of_float : Q -> string.

(** [Settings.query.filter_by(key='budget').first()] *)
Definition query_budget (settings : list Database.Settings.t) : option Database.Settings.t :=
  List.find (fun st => String.eqb (Database.Settings.key st) "budget") settings.

Definition get_budget (settings : list Database.Settings.t) : Q :=
  match query_budget settings with
  | Some setting => default 0%Q (float_of_str (Database.Settings.value setting))
  | None => 0%Q
  end.

Fixpoint update_first_budget (setting : Database.Settings.t)
    (rows : list Database.Settings.t) : list Database.Settings.t :=
  match rows with
  | [] => []
  | st :: rows' =>
      if String.eqb (Database.Settings.key st) "budget" then setting :: rows'
      else st :: update_first_budget setting rows'
  end.

Definition save_budget (budget : Q) (now : string) (settings : list Database.Settings.t)
    : list Database.Settings.t :=
  match query_budget settings with
  | Some setting =>
      update_first_budget
        {| Database.Settings.id := Database.Settings.id setting;
           Database.Settings.key := Database.Settings.key setting;
           Database.Settings.value := str_of_float budget;
           Database.Settings.updated_at := Some now |}
        settings
  | None =>
      (settings ++
       [ {| Database.Settings.id :=
              1 + foldr Z.max 0 (Database.Settings.id <$> settings);
            Database.Settings.key := "budget";
            Database.Settings.value := str_of_float budget;
            Database.Settings.updated_at := Some now |} ])%list
  end.

Definition update_budget (form : gmap string string) (now : string)
    (settings : list Database.Settings.t) : list Database.Settings.t * flash :=
  let budget :=
    match form !! "budget" with
    | Some s => float_of_str s
    | None => Some 0%Q
    end in
  match budget with
  | None => (settings, ("Invalid budget amount", "error"))
  | Some budget =>
      if Qltb budget 0 then (settings, ("Budget cannot be negative", "error"))
      else (save_budget budget now settings, ("Budget updated successfully", "success"))
  end.
End Budget.

End App.

(** ** Vocabulary of the statements *)

(** [i] is the first position at which [x] occurs in [l]. *)
Definition first_index (x : string) (l : list string) (i : nat) : Prop :=
  l !! i = Some x /\ forall j, (j < i)%nat -> l !! j <> Some x.

(** The amounts of the USD costs of one type, in list order. *)
Definition usd_amounts_of_type (ty : string) (costs : list Models.CostModel.t) : list Q :=
  Models.CostModel.amount <$>
    List.filter (fun c => String.eqb (Models.CostModel.currency c) "USD"
                          && String.eqb (Models.CostModel.type c) ty) costs.

(** The creation time by which recent activity orders a record: the text
    of [created_at], and the empty string when it is missing. *)
Definition created_or_empty (created_at : option string) : string :=
  default "" created_at.

(** [ys] is [xs] ordered newest first by [key]: a rearrangement of [xs] in
    which no element has a smaller key than a later one, and in which the
    elements with one same key stand in the order they have in [xs]. *)
Definition stable_newest_first {A} (key : A -> string) (xs ys : list A) : Prop :=
  Permutation ys xs /\
  StronglySorted (fun x y => String.leb (key y) (key x) = true) ys /\
  forall k, filter (fun x => key x = k) ys = filter (fun x => key x = k) xs.

(** [top] is the [limit] most recently created records of [xs]: the
    first [min limit (length xs)] elements of [xs] ordered newest first,
    where a record without a creation time (missing or empty) is followed
    only by records without one. *)
Definition most_recent {A} (created_at : A -> option string) (xs : list A)
    (limit : Z) (top : list A) : Prop :=
  exists rest,
    length top = Nat.min (Z.to_nat limit) (length xs) /\
    stable_newest_first (fun x => created_or_empty (created_at x)) xs (top ++ rest) /\
    forall l1 x l2 y,
      (top ++ rest)%list = (l1 ++ x :: l2)%list -> y ∈ l2 ->
      created_at x = None \/ created_at x = Some "" ->
      created_at y = None \/ created_at y = Some "".

(** A cost record as the constructor of [CostModel] builds it, at a clock
    reading that is not the empty text. *)
Definition constructed_cost (c : Models.CostModel.t) : Prop :=
  exists float_of_str str_of id type amount currency notes created_at now,
    now <> "" /\
    Models.CostModel.__init__ float_of_str str_of
      id type amount currency notes created_at now = Ok c.

(** A stored video as the handlers admit it: its type is one of the
    video types and its status is in the progression list of that type. *)
Definition well_formed_video (v : Database.Video.t) : Prop :=
  Database.Video.type v ∈ App.VIDEO_TYPES /\
  Database.Video.status v ∈
    (if String.eqb (Database.Video.type v) "Testimonial"
     then Database.Video.TESTIMONIAL_STATUSES else App.VIDEO_STATUSES).


(** The ids of the stored videos, and of the stored costs. *)
Definition video_ids (db : App.DB) : list string := Database.Video.id <$> App.videos db.
Definition cost_ids (db : App.DB) : list Z := Database.Cost.id <$> App.costs db.

(** A video as the constructor of [models.py] leaves it. *)
Definition valid_model_video (v : Models.Video.t) : Prop :=
  Models.Video.id v <> "" /\
  strip (Models.Video.id v) = Models.Video.id v /\
  len (Models.Video.id v) <= 100 /\
  Models.Video.type v ∈ Models.Video.VALID_TYPES /\
  Models.Video.status v ∈ Models.Video.VALID_STATUSES.

(** * Properties *)

(** ** Membership and position in a list of strings *)

Lemma str_in_true x l : str_in x l = true <-> x ∈ l.
Proof.
  unfold str_in. rewrite existsb_exists. split.
  - intros (y & Hy & E). apply String.eqb_eq in E. subst. by apply list_elem_of_In.
  - intros H. exists x. split; [by apply list_elem_of_In | apply String.eqb_refl].
Qed.

Lemma str_in_false x l : str_in x l = false <-> x ∉ l.
Proof.
  rewrite <- str_in_true. destruct (str_in x l); split; intros; congruence.
Qed.

Lemma list_index_first x l i : list_index x l = Ok i -> first_index x l i.
Proof.
  revert i. induction l as [|y l IH]; intros i; simpl; [discriminate|].
  destruct (String.eqb_spec y x) as [->|Hne].
  - intros [= <-]. split; [done | intros j Hj; lia].
  - destruct (list_index x l) as [k|e]; simpl; [|discriminate].
    intros [= <-]. destruct (IH k eq_refl) as [Hk Hmin]. split; [done|].
    intros [|j] Hj; simpl; [congruence | apply Hmin; lia].
Qed.

Lemma first_index_unique x l i j : first_index x l i -> first_index x l j -> i = j.
Proof.
  intros [Hi Hmi] [Hj Hmj].
  destruct (Nat.lt_trichotomy i j) as [H|[H|H]]; [|done|].
  - by destruct (Hmj i H).
  - by destruct (Hmi j H).
Qed.

Lemma list_index_absent x l : x ∉ l -> list_index x l = Raise ValueError.
Proof.
  induction l as [|y l IH]; simpl; [done|].
  intros H. apply not_elem_of_cons in H as [Hne Hl].
  destruct (String.eqb_spec y x); [congruence|]. by rewrite IH.
Qed.

Lemma list_index_cases x l :
  (exists i, list_index x l = Ok i /\ (i < length l)%nat) \/
  (list_index x l = Raise ValueError /\ x ∉ l).
Proof.
  destruct (decide (x ∈ l)) as [Hin|Hout].
  - left. induction l as [|y l IH]; [by apply elem_of_nil in Hin|]. simpl.
    destruct (String.eqb_spec y x) as [->|Hne]; [exists O; split; [done|simpl; lia]|].
    apply elem_of_cons in Hin as [->|Hin]; [done|].
    destruct (IH Hin) as (i & -> & Hi). exists (S i). split; [done|simpl; lia].
  - right. split; [by apply list_index_absent | done].
Qed.

(** ** Progress percentage *)

Lemma progress_bounds (i n : nat) :
  (i < n)%nat ->
  (0 <= inject_Z (Z.of_nat i + 1) / inject_Z (Z.of_nat n) * 100 <= 100)%Q.
Proof.
  intros Hlt.
  assert (Hn : (0 < inject_Z (Z.of_nat n))%Q) by (rewrite <- (Zlt_Qlt 0); lia).
  split.
  - apply Qmult_le_0_compat; [|discriminate].
    apply Qle_shift_div_l; [done|]. rewrite Qmult_0_l.
    rewrite <- (Zle_Qle 0). lia.
  - apply Qle_trans with (1 * 100)%Q; [|discriminate].
    apply Qmult_le_compat_r; [|discriminate].
    apply Qle_shift_div_r; [done|]. rewrite Qmult_1_l.
    rewrite <- Zle_Qle. lia.
Qed.

Lemma progress_spec status statuses :
  exists r,
    try_except_ValueError
      (status_index ← list_index status statuses;
       Ok ((inject_Z (Z.of_nat status_index + 1)
              / inject_Z (Z.of_nat (length statuses))) * 100)%Q)
      (Ok 0%Q) = Ok r /\
    (0 <= r <= 100)%Q /\
    (forall i, first_index status statuses i ->
       r = (inject_Z (Z.of_nat i + 1) / inject_Z (Z.of_nat (length statuses)) * 100)%Q) /\
    (status ∉ statuses -> r = 0%Q).
Proof.
  destruct (list_index_cases status statuses) as [(i & Hi & Hlt)|[Hr Hout]].
  - rewrite Hi. simpl. eexists. split; [reflexivity|].
    split; [by apply progress_bounds|]. split.
    + intros j Hj. apply list_index_first in Hi.
      by rewrite (first_index_unique _ _ _ _ Hj Hi).
    + intros Hout. apply list_index_first in Hi as [Hi _].
      destruct Hout. eapply list_elem_of_lookup_2. exact Hi.
  - rewrite Hr. simpl. exists 0%Q. split; [done|]. split; [split; discriminate|].
    split; [|done]. intros i [Hi _]. destruct Hout.
    eapply list_elem_of_lookup_2. exact Hi.
Qed.

(** C10.  [get_progress_percentage] never raises, in [database.py] and in
    [models.py] alike.  With the applicable progression list (in the
    database model the seven Testimonial stages for a video of type
    Testimonial and the five stages otherwise; in [models.py] its one list
    of five), the result is [(i + 1) / len * 100] when the status stands at
    position [i] of the list, is [0.0] when the status is not in the list,
    and always lies between 0 and 100. *)
Theorem get_progress_percentage_never_raises :
  (forall v : Database.Video.t,
     let statuses :=
       if String.eqb (Database.Video.type v) "Testimonial"
       then Database.Video.TESTIMONIAL_STATUSES else Database.Video.VALID_STATUSES in
     exists r, Database.Video.get_progress_percentage v = Ok r /\
       (0 <= r <= 100)%Q /\
       (forall i, first_index (Database.Video.status v) statuses i ->
          r = (inject_Z (Z.of_nat i + 1) / inject_Z (Z.of_nat (length statuses)) * 100)%Q) /\
       (Database.Video.status v ∉ statuses -> r = 0%Q)) /\
  (forall v : Models.Video.t,
     let statuses := Models.Video.VALID_STATUSES in
     exists r, Models.Video.get_progress_percentage v = Ok r /\
       (0 <= r <= 100)%Q /\
       (forall i, first_index (Models.Video.status v) statuses i ->
          r = (inject_Z (Z.of_nat i + 1) / inject_Z (Z.of_nat (length statuses)) * 100)%Q) /\
       (Models.Video.status v ∉ statuses -> r = 0%Q)).
Proof.
  split.
  - intros v statuses.
    exact (progress_spec (Database.Video.status v) statuses).
  - intros v statuses. exact (progress_spec (Models.Video.status v) statuses).
Qed.

(** A Testimonial video at "Avatar Creation" is at 2/7 of its list; the
    same status on a Brand video is outside the list, and gives [0.0]. *)
Lemma get_progress_percentage_never_raises_witness :
  (exists r, Database.Video.get_progress_percentage
       {| Database.Video.id := "t1"; Database.Video.type := "Testimonial";
          Database.Video.status := "Avatar Creation";
          Database.Video.created_at := None; Database.Video.updated_at := None |} = Ok r /\
     r = (inject_Z 2 / inject_Z 7 * 100)%Q) /\
  (exists r, Database.Video.get_progress_percentage
       {| Database.Video.id := "b1"; Database.Video.type := "Brand";
          Database.Video.status := "Avatar Creation";
          Database.Video.created_at := None; Database.Video.updated_at := None |} = Ok r /\
     r = 0%Q).
Proof.
  split.
  - destruct (proj1 get_progress_percentage_never_raises
      {| Database.Video.id := "t1"; Database.Video.type := "Testimonial";
         Database.Video.status := "Avatar Creation";
         Database.Video.created_at := None; Database.Video.updated_at := None |})
      as (r & Hr & _ & Hidx & _).
    exists r. split; [exact Hr|]. apply (Hidx 1%nat).
    split; [reflexivity|]. intros [|j] Hj; [discriminate | lia].
  - destruct (proj1 get_progress_percentage_never_raises
      {| Database.Video.id := "b1"; Database.Video.type := "Brand";
         Database.Video.status := "Avatar Creation";
         Database.Video.created_at := None; Database.Video.updated_at := None |})
      as (r & Hr & _ & _ & Hout).
    exists r. split; [exact Hr|]. apply Hout. simpl.
    intros H. repeat (apply elem_of_cons in H as [H|H]; [discriminate|]).
    by apply elem_of_nil in H.
Defined.

(** ** Budget status *)

Lemma Qltb_lt (a b : Q) : Qltb a b = true <-> (a < b)%Q.
Proof.
  unfold Qltb. rewrite negb_true_iff. split.
  - intros H. apply Qnot_le_lt. intros Hle. apply Qle_bool_iff in Hle. congruence.
  - intros H. destruct (Qle_bool b a) eqn:E; [|done].
    apply Qle_bool_iff in E. destruct (Qlt_not_le _ _ H E).
Qed.

Lemma Qltb_ge (a b : Q) : Qltb a b = false <-> (b <= a)%Q.
Proof.
  unfold Qltb. rewrite negb_false_iff. apply Qle_bool_iff.
Qed.

(** C2.  With [spent] the sum of the amounts of the costs whose currency
    is USD, the budget status has [remaining = budget - spent];
    [percentage_used = spent / budget * 100] when [budget > 0] and [0]
    otherwise; [over_budget] exactly when [remaining < 0]; [near_budget]
    exactly when [budget > 0] and [remaining < budget * 0.1].  So budget
    100 with 120 spent leaves -20 and is over budget, budget 100 with 95
    spent is near budget, and budget 0 gives 0 percent and is not near
    budget. *)
Theorem get_budget_status_spec :
  forall (videos : list Models.Video.t) (costs : list Models.CostModel.t) (b : Q),
    let self := {| Models.ProjectStats.videos := videos;
                   Models.ProjectStats.costs := costs;
                   Models.ProjectStats.budget := b |} in
    let spent :=
      Py.sum (Models.CostModel.amount <$>
                List.filter (fun c => String.eqb (Models.CostModel.currency c) "USD") costs) in
    let st := Models.ProjectStats.get_budget_status self in
    Models.ProjectStats.spent st = spent /\
    Models.ProjectStats.remaining st = (b - spent)%Q /\
    ((0 < b)%Q -> Models.ProjectStats.percentage_used st = (spent / b * 100)%Q) /\
    (~ (0 < b)%Q -> Models.ProjectStats.percentage_used st = 0%Q) /\
    (Models.ProjectStats.over_budget st = true <->
       (Models.ProjectStats.remaining st < 0)%Q) /\
    (Models.ProjectStats.near_budget st = true <->
       (0 < b)%Q /\ (Models.ProjectStats.remaining st < b * (1 # 10))%Q) /\
    (b == 100 -> spent == 120 ->
       Models.ProjectStats.remaining st == -20 /\
       Models.ProjectStats.over_budget st = true)%Q /\
    (b == 100 -> spent == 95 -> Models.ProjectStats.near_budget st = true)%Q /\
    (b == 0 ->
       Models.ProjectStats.percentage_used st = 0 /\
       Models.ProjectStats.near_budget st = false)%Q.
Proof.
  intros videos costs b self spent st.
  assert (Hnear : Models.ProjectStats.near_budget st = true <->
            (0 < b)%Q /\ (Models.ProjectStats.remaining st < b * (1 # 10))%Q).
  { unfold st, Models.ProjectStats.get_budget_status. simpl. fold spent.
    destruct (Qltb 0 b) eqn:Hb.
    - rewrite Qltb_lt. apply Qltb_lt in Hb. tauto.
    - apply Qltb_ge in Hb. split; [discriminate|].
      intros [H _]. destruct (Qlt_not_le _ _ H Hb). }
  assert (Hover : Models.ProjectStats.over_budget st = true <->
            (Models.ProjectStats.remaining st < 0)%Q) by apply Qltb_lt.
  split; [reflexivity|]. split; [reflexivity|].
  split.
  { intros Hb. apply Qltb_lt in Hb. unfold st, Models.ProjectStats.get_budget_status.
    simpl. by rewrite Hb. }
  split.
  { intros Hb. unfold st, Models.ProjectStats.get_budget_status. simpl.
    destruct (Qltb 0 b) eqn:E; [|done]. apply Qltb_lt in E. contradiction. }
  split; [exact Hover|]. split; [exact Hnear|].
  split.
  { intros Hb Hs.
    assert (Hrem : (Models.ProjectStats.remaining st == -20)%Q).
    { change (Models.ProjectStats.remaining st) with (b - spent)%Q.
      rewrite Hb, Hs. reflexivity. }
    split; [exact Hrem|]. apply Hover. rewrite Hrem. reflexivity. }
  split.
  { intros Hb Hs. apply Hnear.
    change (Models.ProjectStats.remaining st) with (b - spent)%Q.
    rewrite Hb, Hs. split; reflexivity. }
  intros Hb. split.
  - unfold st, Models.ProjectStats.get_budget_status. simpl.
    destruct (Qltb 0 b) eqn:E; [|done]. apply Qltb_lt in E.
    rewrite Hb in E. discriminate.
  - apply not_true_is_false. intros E.
    apply Hnear in E as [E _]. rewrite Hb in E. discriminate.
Qed.

(** One USD cost of 120 and one PKR cost of 7 against a budget of 100. *)
Lemma get_budget_status_spec_witness :
  let costs :=
    [ {| Models.CostModel.id := Some 1; Models.CostModel.type := "Tool";
         Models.CostModel.amount := 120; Models.CostModel.currency := "USD";
         Models.CostModel.notes := ""; Models.CostModel.created_at := Some "2024-01-01" |};
      {| Models.CostModel.id := Some 2; Models.CostModel.type := "Other";
         Models.CostModel.amount := 7; Models.CostModel.currency := "PKR";
         Models.CostModel.notes := ""; Models.CostModel.created_at := Some "2024-01-02" |} ] in
  let st := Models.ProjectStats.get_budget_status
    {| Models.ProjectStats.videos := []; Models.ProjectStats.costs := costs;
       Models.ProjectStats.budget := 100 |} in
  (Models.ProjectStats.remaining st == -20)%Q /\ Models.ProjectStats.over_budget st = true.
Proof.
  intros costs st.
  destruct (get_budget_status_spec [] costs 100) as (_ & _ & _ & _ & _ & _ & H & _).
  apply H; reflexivity.
Defined.

(** ** Loops that fill a dictionary *)

Lemma lookup_dict_from_keys {V} (keys : list string) (v0 : V) (k : string) :
  dict_from_keys keys v0 !! k = if decide (k ∈ keys) then Some v0 else None.
Proof.
  unfold dict_from_keys.
  assert (G : forall d : gmap string V,
             foldl (fun d k => <[k := v0]> d) d keys !! k
             = if decide (k ∈ keys) then Some v0 else d !! k).
  { induction keys as [|k' keys IH]; intros d; cbn [foldl].
    - case_decide as H; [by apply elem_of_nil in H | done].
    - rewrite IH.
      destruct (decide (k ∈ keys)) as [Hin|Hin], (decide (k ∈ k' :: keys)) as [Hin'|Hin'].
      + done.
      + destruct Hin'. by right.
      + apply elem_of_cons in Hin' as [->|Hin']; [|done]. apply lookup_insert_eq.
      + apply lookup_insert_ne. intros ->. apply Hin'. left. }
  rewrite G. by destruct (decide (k ∈ keys)).
Qed.

Lemma dict_iadd_Some {V} (add : V -> V -> V) k v (d : gmap string V) x :
  d !! k = Some x -> dict_iadd add k v d = Ok (<[k := add x v]> d).
Proof. intros H. unfold dict_iadd. by rewrite H. Qed.


Section ForDictIadd.
Context {A V : Type} (add : V -> V -> V).
Context (sel : A -> bool) (key : A -> string) (val : A -> V).

(** The loop [for x in xs: if sel(x): d[key(x)] += val(x)] ends normally
    when every selected key is in the dictionary, and has then added the
    selected values of each key to its entry, from the left. *)
Lemma for_dict_iadd_ok (xs : list A) (d : gmap string V) :
  (forall x, x ∈ xs -> sel x = true -> is_Some (d !! key x)) ->
  exists d',
    for_ (fun d x => if sel x then dict_iadd add (key x) (val x) d else Ok d) xs d = Ok d' /\
    forall k, d' !! k =
      (fun v0 => foldl add v0 (val <$> List.filter (fun x => sel x && String.eqb (key x) k) xs))
        <$> d !! k.
Proof.
  revert d. induction xs as [|x xs IH]; intros d Hkeys; cbn [for_ List.filter]; cbn beta.
  - exists d. split; [done|]. intros k. by destruct (d !! k).
  - pose proof (Hkeys x (list_elem_of_here _ _)) as Hx.
    destruct (sel x) eqn:Hsel; cbn [andb].
    + destruct (Hx eq_refl) as [v Hv].
      rewrite (dict_iadd_Some _ _ _ _ _ Hv). cbn [mbind result_bind].
      destruct (IH (<[key x := add v (val x)]> d)) as (d' & Hd' & Hlook).
      { intros y Hy Hs. destruct (decide (key x = key y)) as [E|E].
        - rewrite E. rewrite lookup_insert_eq. by eexists.
        - rewrite lookup_insert_ne by done. apply Hkeys; [by right|done]. }
      exists d'. split; [exact Hd'|]. intros k. rewrite Hlook.
      destruct (String.eqb_spec (key x) k) as [<-|Hne].
      * rewrite lookup_insert_eq, Hv. reflexivity.
      * by rewrite lookup_insert_ne.
    + cbn [mbind result_bind]. destruct (IH d) as (d' & Hd' & Hlook).
      { intros y Hy Hs. apply Hkeys; [by right|done]. }
      exists d'. split; [exact Hd'|]. exact Hlook.
Qed.

End ForDictIadd.

(** ** Cost distribution by type *)

(** C9.  For a list of costs whose types are among Tool, Freelancer and
    Other, the cost distribution by type has exactly these three keys, and
    maps each to the sum of the amounts of the costs of that type whose
    currency is USD.  A list with PKR costs only gives 0 for every type. *)
Theorem get_cost_distribution_by_type_usd_only :
  forall (videos : list Models.Video.t) (costs : list Models.CostModel.t) (b : Q),
    Forall (fun c => Models.CostModel.type c ∈ Models.CostModel.VALID_TYPES) costs ->
    exists d,
      Models.ProjectStats.get_cost_distribution_by_type
        {| Models.ProjectStats.videos := videos;
           Models.ProjectStats.costs := costs;
           Models.ProjectStats.budget := b |} = Ok d /\
      (forall ty, d !! ty =
         if decide (ty ∈ Models.CostModel.VALID_TYPES)
         then Some (Py.sum (usd_amounts_of_type ty costs)) else None) /\
      (Forall (fun c => Models.CostModel.currency c = "PKR") costs ->
       forall ty, ty ∈ Models.CostModel.VALID_TYPES -> d !! ty = Some 0%Q).
Proof.
  intros videos costs b Hvalid.
  unfold Models.ProjectStats.get_cost_distribution_by_type. cbn [Models.ProjectStats.costs].
  destruct (for_dict_iadd_ok Qplus
              (fun c => String.eqb (Models.CostModel.currency c) "USD")
              Models.CostModel.type Models.CostModel.amount costs
              (dict_from_keys Models.CostModel.VALID_TYPES 0%Q)) as (d & Hd & Hlook).
  { intros c Hc _. rewrite lookup_dict_from_keys.
    rewrite Forall_forall in Hvalid.
    rewrite decide_True by (by apply Hvalid). by eexists. }
  exists d. split; [exact Hd|].
  assert (Hall : forall ty, d !! ty =
            if decide (ty ∈ Models.CostModel.VALID_TYPES)
            then Some (Py.sum (usd_amounts_of_type ty costs)) else None).
  { intros ty. rewrite Hlook, lookup_dict_from_keys. by case_decide. }
  split; [exact Hall|].
  intros Hpkr ty Hty. rewrite Hall, decide_True by done. f_equal.
  unfold usd_amounts_of_type.
  replace (List.filter _ costs) with (@nil Models.CostModel.t); [reflexivity|].
  clear -Hpkr. induction Hpkr as [|c costs Hc _ IH]; [done|].
  cbn [List.filter]. by rewrite Hc.
Qed.

(** One USD tool cost and two PKR costs: Tool gets the USD amount, the
    other two types get 0. *)
Lemma get_cost_distribution_by_type_usd_only_witness :
  let cost ty amt cur :=
    {| Models.CostModel.id := None; Models.CostModel.type := ty;
       Models.CostModel.amount := amt; Models.CostModel.currency := cur;
       Models.CostModel.notes := ""; Models.CostModel.created_at := Some "2024-05-01" |} in
  let costs := [cost "Tool" 30%Q "USD"; cost "Tool" 900%Q "PKR"; cost "Freelancer" 70%Q "PKR"] in
  exists d,
    Models.ProjectStats.get_cost_distribution_by_type
      {| Models.ProjectStats.videos := []; Models.ProjectStats.costs := costs;
         Models.ProjectStats.budget := 0 |} = Ok d /\
    d !! "Tool" = Some (Py.sum [30%Q]) /\ d !! "Freelancer" = Some (Py.sum []).
Proof.
  intros cost costs.
  destruct (get_cost_distribution_by_type_usd_only [] costs 0%Q) as (d & Hd & Hlook & _).
  { repeat constructor. }
  exists d. split; [exact Hd|]. split; rewrite Hlook; reflexivity.
Defined.

(** A USD cost whose type is not one of the three makes the loop raise
    [KeyError]; the constructor of [CostModel] never builds such a cost. *)
Example get_cost_distribution_by_type_unknown_type :
  Models.ProjectStats.get_cost_distribution_by_type
    {| Models.ProjectStats.videos := [];
       Models.ProjectStats.costs :=
         [ {| Models.CostModel.id := None; Models.CostModel.type := "Travel";
              Models.CostModel.amount := 5; Models.CostModel.currency := "USD";
              Models.CostModel.notes := ""; Models.CostModel.created_at := None |} ];
       Models.ProjectStats.budget := 0 |} = Raise (KeyError "Travel").
Proof. reflexivity. Qed.

(** ** The end-to-end scenario *)


(** ** Status distribution *)

Lemma length_filter_eqb {A} (f : A -> string) (s : string) (l : list A) :
  length (List.filter (fun x => String.eqb (f x) s) l)
  = length (filter (fun x => f x = s) l).
Proof.
  induction l as [|x l IH]; [done|]. cbn [List.filter]. rewrite filter_cons.
  destruct (String.eqb_spec (f x) s) as [E|E].
  - rewrite decide_True by done. simpl. by rewrite IH.
  - by rewrite decide_False by done.
Qed.

Lemma set_fold_status_counts (videos : list Database.Video.t) (X : gset string) (s : string) :
  set_fold (fun status (status_counts : gmap string Z) =>
              <[status := App.count_status videos status]> status_counts) ∅ X !! s
  = if decide (s ∈ X) then Some (App.count_status videos s) else None.
Proof.
  revert s. revert X.
  apply (set_fold_ind_L
    (fun (d : gmap string Z) (Y : gset string) =>
       forall s, d !! s = if decide (s ∈ Y) then Some (App.count_status videos s) else None)).
  - intros s. rewrite lookup_empty. by rewrite decide_False by set_solver.
  - intros x X' d Hx IH s. destruct (decide (x = s)) as [->|Hne].
    + rewrite lookup_insert_eq. by rewrite decide_True by set_solver.
    + rewrite lookup_insert_ne by done. rewrite IH.
      destruct (decide (s ∈ X')) as [Hin|Hin], (decide (s ∈ {[x]} ∪ X')) as [Hin'|Hin'];
        [done | | | done].
      * destruct Hin'. apply elem_of_union. by right.
      * apply elem_of_union in Hin' as [Hin'|Hin']; [|done].
        apply elem_of_singleton in Hin'. congruence.
Qed.

(** On the dashboard the status distribution has as its keys exactly the
    statuses of the two progression lists taken together.  Each of them is
    mapped to the number of videos whose status field is that string,
    whatever the type of the video is; a status that no video has is
    mapped to 0. *)
Lemma index_status_counts_combined :
  forall db : App.DB,
    let d := App.status_counts (App.index db) in
    (forall s, is_Some (d !! s) <->
       s ∈ Database.Video.VALID_STATUSES \/ s ∈ Database.Video.TESTIMONIAL_STATUSES) /\
    (forall s,
       s ∈ Database.Video.VALID_STATUSES \/ s ∈ Database.Video.TESTIMONIAL_STATUSES ->
       d !! s = Some (Z.of_nat (length
                  (filter (fun v => Database.Video.status v = s) (App.videos db))))) /\
    (forall s,
       s ∈ Database.Video.VALID_STATUSES \/ s ∈ Database.Video.TESTIMONIAL_STATUSES ->
       (forall v, v ∈ App.videos db -> Database.Video.status v <> s) ->
       d !! s = Some 0).
Proof.
  intros db d.
  assert (Hd : forall s, d !! s =
            if decide (s ∈ (Database.Video.VALID_STATUSES
                              ++ Database.Video.TESTIMONIAL_STATUSES)%list)
            then Some (Z.of_nat (length
                   (filter (fun v => Database.Video.status v = s) (App.videos db))))
            else None).
  { intros s. unfold d, App.index. cbn [App.status_counts].
    rewrite set_fold_status_counts. unfold App.count_status, App.VIDEO_STATUSES.
    rewrite length_filter_eqb. do 2 case_decide; [done | | | done]; set_solver. }
  split; [|split].
  - intros s. rewrite Hd, <- elem_of_app.
    case_decide; split; intros H'; first [done | by eexists | by destruct H' as [? ?]].
  - intros s Hs. rewrite Hd, decide_True; [done|]. by apply elem_of_app.
  - intros s Hs Hnone. rewrite Hd, decide_True by (by apply elem_of_app).
    replace (filter _ (App.videos db)) with (@nil Database.Video.t); [done|].
    symmetry. revert Hnone. generalize (App.videos db) as l.
    induction l as [|v l IH]; intros Hnone; [done|].
    rewrite filter_cons, decide_False by (apply Hnone, list_elem_of_here).
    apply IH. intros v' Hv'. apply Hnone. by right.
Qed.

(** A Testimonial video at a status of the Testimonial list only, and a
    Brand video recorded with that same status: both are counted under it. *)
Example index_status_counts_combined_example :
  let video id ty st :=
    {| Database.Video.id := id; Database.Video.type := ty; Database.Video.status := st;
       Database.Video.created_at := None; Database.Video.updated_at := None |} in
  let db := {| App.videos := [video "t1" "Testimonial" "Avatar Creation";
                              video "b1" "Brand" "Avatar Creation";
                              video "b2" "Brand" "Final"];
               App.costs := [] |} in
  App.status_counts (App.index db) !! "Avatar Creation" = Some 2 /\
  App.status_counts (App.index db) !! "Visuals" = Some 0.
Proof.
  intros video db.
  destruct (index_status_counts_combined db) as (_ & Hcount & Hzero).
  split.
  - rewrite Hcount; [reflexivity|]. right. set_solver.
  - apply Hzero; [left; set_solver|].
    intros v Hv. repeat (apply elem_of_cons in Hv as [->|Hv]; [discriminate|]).
    by apply elem_of_nil in Hv.
Defined.



(** A video at a status outside that list, such as a stage of the
    Testimonial list of [database.py], makes it raise [KeyError]. *)
Example get_status_distribution_KeyError :
  Models.ProjectStats.get_status_distribution
    {| Models.ProjectStats.videos :=
         [ {| Models.Video.id := "t1"; Models.Video.type := "Testimonial";
              Models.Video.status := "Avatar Creation";
              Models.Video.created_at := None; Models.Video.updated_at := None |} ];
       Models.ProjectStats.costs := [];
       Models.ProjectStats.budget := 0 |} = Raise (KeyError "Avatar Creation").
Proof. reflexivity. Qed.





(** ** Status updates *)

(** C6.  When the status sent for a stored video is not in the progression
    list of the video's type (the Testimonial list for a Testimonial video,
    the five stages otherwise), [update_video_status] flashes an error and
    leaves the database, and so the status of the video, as it was. *)
Theorem update_video_status_rejects_invalid :
  forall (db : App.DB) (form : gmap string string) (now video_id new_status : string)
         (video : Database.Video.t),
    form !! "video_id" = Some video_id ->
    form !! "status" = Some new_status ->
    App.query_video db video_id = Some video ->
    new_status ∉ (if String.eqb (Database.Video.type video) "Testimonial"
                  then Database.Video.TESTIMONIAL_STATUSES
                  else Database.Video.VALID_STATUSES) ->
    exists msg,
      App.update_video_status form now db = (db, (msg, "error")) /\
      App.query_video (fst (App.update_video_status form now db)) video_id = Some video.
Proof.
  intros db form now video_id new_status video Hid Hst Hq Hout.
  assert (G : exists msg, App.update_video_status form now db = (db, (msg, "error"))).
  { unfold App.update_video_status. rewrite Hid, Hst.
    destruct (String.eqb video_id "" || String.eqb new_status ""); [by eexists|].
    rewrite Hq. apply str_in_false in Hout. unfold App.VIDEO_STATUSES.
    rewrite Hout. by eexists. }
  destruct G as [msg G]. exists msg. split; [exact G|]. by rewrite G.
Qed.

(** A Brand video cannot be moved to a stage of the Testimonial list. *)
Lemma update_video_status_rejects_invalid_witness :
  let video :=
    {| Database.Video.id := "b1"; Database.Video.type := "Brand";
       Database.Video.status := "VO";
       Database.Video.created_at := Some "2024-03-01T10:00:00";
       Database.Video.updated_at := Some "2024-03-01T10:00:00" |} in
  let db := {| App.videos := [video]; App.costs := [] |} in
  let form : gmap string string := {[ "video_id" := "b1"; "status" := "Avatar Creation" ]} in
  exists msg,
    App.update_video_status form "2024-03-02T09:00:00" db = (db, (msg, "error")) /\
    App.query_video (fst (App.update_video_status form "2024-03-02T09:00:00" db)) "b1"
      = Some video.
Proof.
  intros video db form.
  apply (update_video_status_rejects_invalid db form "2024-03-02T09:00:00" "b1"
           "Avatar Creation" video); [reflexivity | reflexivity | reflexivity |].
  simpl. intros H. repeat (apply elem_of_cons in H as [H|H]; [discriminate|]).
  by apply elem_of_nil in H.
Defined.

(** [Video.update_status] of [models.py] checks against its one list,
    whatever the type: a status outside it raises [ValidationError] before
    anything is assigned. *)
Lemma update_status_rejects_invalid (self : Models.Video.t) (new_status : value) (now : string) :
  (forall s, new_status = VStr s -> s ∉ Models.Video.VALID_STATUSES) ->
  exists msg,
    Models.Video.update_status self new_status now = (Raise (ValidationError msg), self).
Proof.
  intros Hout. unfold Models.Video.update_status, Models.Video._validate_status.
  destruct new_status as [|s|z|q]; try by eexists.
  specialize (Hout s eq_refl). apply str_in_false in Hout. rewrite Hout.
  rewrite orb_true_r. by eexists.
Qed.

(** ** Round trip through the storage dictionary *)

(** C4, the Video half.  [from_dict] hands [created_at] and [updated_at]
    to a constructor that has no such parameters: reconstructing a video
    from its own storage dictionary raises [TypeError], for every video. *)
Theorem Video_from_dict_to_dict_raises :
  forall v : Models.Video.t,
    Models.Video.from_dict (Models.Video.to_dict v)
    = Raise (TypeError "__init__() got an unexpected keyword argument 'created_at'").
Proof. intros [id type status created updated]. reflexivity. Qed.

(** No dictionary at all is turned into a video. *)
Lemma Video_from_dict_never_ok (data : gmap string value) :
  exists e, Models.Video.from_dict data = Raise e /\
    forall msg, e <> ValidationError msg.
Proof.
  unfold Models.Video.from_dict, dict_getitem.
  destruct (data !! "id"); [|by eexists].
  destruct (data !! "type"); [|by eexists].
  by eexists.
Qed.

(** ** Adding a video with an id that is already stored *)

Lemma get_videos_empty (self : Models.DataManager.t) :
  Models.DataManager.get_videos self = [].
Proof.
  unfold Models.DataManager.get_videos.
  destruct (default [] (Models.DataManager.videos self)) as [|d ds]; [done|].
  cbn [for_]. destruct (Video_from_dict_never_ok d) as (e & -> & He).
  destruct e; try done. by destruct (He msg).
Qed.

(** C8 on [DataManager.add_video].  The store holds v1 and v2; a video
    with the id v1 is added.  [get_videos] has returned the empty list,
    because the [TypeError] of [from_dict] ends its loop in the outer
    handler; no duplicate is seen, [add_video] reports success, and the
    store now holds the new video alone. *)
Theorem DataManager_add_video_duplicate_not_rejected :
  let video id ty st :=
    {| Models.Video.id := id; Models.Video.type := ty; Models.Video.status := st;
       Models.Video.created_at := None; Models.Video.updated_at := None |} in
  let store :=
    {| Models.DataManager.videos :=
         Some [Models.Video.to_dict (video "v1" "Brand" "Script");
               Models.Video.to_dict (video "v2" "System" "VO")];
       Models.DataManager.costs := None |} in
  let duplicate := video "v1" "System" "Final" in
  Models.DataManager.get_videos store = [] /\
  Models.DataManager.add_video store duplicate
  = ({| Models.DataManager.videos := Some [Models.Video.to_dict duplicate];
        Models.DataManager.costs := None |}, true).
Proof.
  intros video store duplicate. split; [apply get_videos_empty|].
  unfold Models.DataManager.add_video. by rewrite get_videos_empty.
Qed.

(** The [add_video] handler of [app.py] does reject it: when the id sent,
    stripped, is the id of a stored video, an error is flashed and the
    database is as before. *)
Lemma add_video_rejects_duplicate (db : App.DB) (form : gmap string string)
    (created_now updated_now : string) (v : Database.Video.t) :
  v ∈ App.videos db ->
  strip (default "" (form !! "video_id")) = Database.Video.id v ->
  exists msg, App.add_video form created_now updated_now db = (db, (msg, "error")).
Proof.
  intros Hv Hid. unfold App.add_video. rewrite Hid.
  destruct (String.eqb (Database.Video.id v) "" || String.eqb (default "" (form !! "video_type")) "");
    [by eexists|].
  destruct (App.query_video db (Database.Video.id v)) as [w|] eqn:Hq; [by eexists|].
  unfold App.query_video in Hq. apply list_elem_of_In in Hv.
  pose proof (find_none _ _ Hq v Hv) as Hne. cbn beta in Hne.
  by rewrite String.eqb_refl in Hne.
Qed.

(** ** The amount of a cost *)





(** An [int] that [float] cannot convert is not answered with
    [ValidationError]: the [OverflowError] passes the handler of
    [_validate_amount] and leaves the constructor. *)
Example CostModel_amount_overflow :
  Models.CostModel.__init__ (fun _ => None) (fun _ => "")
    None (VStr "Tool") (VInt (10 ^ 400)) (VStr "USD") (VStr "") None "2024-01-01"
  = Raise (OverflowError "int too large to convert to float").
Proof. vm_compute. reflexivity. Qed.

(** The handler has no ceiling and does not round: an amount of
    2,000,000.555 is stored as it was entered. *)
Example add_cost_no_ceiling_no_rounding :
  let float_of_str (s : string) :=
    if String.eqb s "2000000.555" then Some (2000000555 # 1000)%Q else None in
  let form : gmap string string :=
    {[ "cost_type" := "Other"; "amount" := "2000000.555" ]} in
  exists c,
    App.add_cost float_of_str form "2024-01-01" {| App.videos := []; App.costs := [] |}
    = ({| App.videos := []; App.costs := [c] |}, ("Cost entry added successfully", "success"))
    /\ Database.Cost.amount c = (2000000555 # 1000)%Q.
Proof. intros. eexists. split; reflexivity. Qed.

(** ** Recent activity *)

Lemma leb_iff (a b : string) : String.leb a b = true <-> a = b \/ OrderedTypeEx.String_as_OT.lt a b.
Proof.
  unfold String.leb. destruct (String.compare a b) eqn:E.
  - apply OrderedTypeEx.String_as_OT.cmp_eq in E. tauto.
  - apply OrderedTypeEx.String_as_OT.cmp_lt in E. tauto.
  - split; [done|]. intros [H|H].
    + apply OrderedTypeEx.String_as_OT.cmp_eq in H.
      unfold OrderedTypeEx.String_as_OT.cmp in H. congruence.
    + apply OrderedTypeEx.String_as_OT.cmp_lt in H.
      unfold OrderedTypeEx.String_as_OT.cmp in H. congruence.
Qed.

Lemma leb_trans (a b c : string) :
  String.leb a b = true -> String.leb b c = true -> String.leb a c = true.
Proof.
  rewrite !leb_iff. intros [->|Hab] [->|Hbc]; auto.
  right. eapply OrderedTypeEx.String_as_OT.lt_trans; eassumption.
Qed.

Lemma ltb_leb (a b : string) : String.ltb a b = true -> String.leb a b = true.
Proof. unfold String.ltb, String.leb. by destruct (String.compare a b). Qed.

Lemma ltb_false_leb (a b : string) : String.ltb a b = false -> String.leb b a = true.
Proof.
  unfold String.ltb, String.leb. rewrite (String.compare_antisym a b).
  by destruct (String.compare b a).
Qed.

Lemma ltb_neq (a b : string) : String.ltb a b = true -> a <> b.
Proof.
  unfold String.ltb. intros H ->.
  assert (E : String.compare b b = Eq)
    by (by apply (OrderedTypeEx.String_as_OT.cmp_eq b b)).
  by rewrite E in H.
Qed.

Lemma leb_empty (s : string) : String.leb "" s = true.
Proof. by destruct s. Qed.

Section SortedReverse.
Context {A : Type} (key : A -> string).

Lemma insert_reverse_Permutation (x : A) (l : list A) :
  Permutation (insert_reverse key x l) (x :: l).
Proof.
  induction l as [|y l IH]; cbn [insert_reverse]; [done|].
  destruct (String.ltb (key x) (key y)); [|done].
  rewrite IH. apply perm_swap.
Qed.

Lemma sorted_reverse_Permutation (xs : list A) : Permutation (sorted_reverse key xs) xs.
Proof.
  induction xs as [|x xs IH]; [done|]. cbn [sorted_reverse foldr].
  rewrite insert_reverse_Permutation. by constructor.
Qed.

Lemma insert_reverse_sorted (x : A) (l : list A) :
  StronglySorted (fun a b => String.leb (key b) (key a) = true) l ->
  StronglySorted (fun a b => String.leb (key b) (key a) = true) (insert_reverse key x l).
Proof.
  induction 1 as [|y l Hsorted IH Hy]; cbn [insert_reverse].
  - repeat constructor.
  - destruct (String.ltb (key x) (key y)) eqn:E.
    + constructor; [exact IH|].
      rewrite insert_reverse_Permutation. constructor; [by apply ltb_leb | exact Hy].
    + apply ltb_false_leb in E. constructor; [by constructor|].
      constructor; [exact E|].
      eapply List.Forall_impl; [|exact Hy]. intros z Hz. cbn beta in *.
      by apply (leb_trans _ (key y)).
Qed.

Lemma sorted_reverse_sorted (xs : list A) :
  StronglySorted (fun a b => String.leb (key b) (key a) = true) (sorted_reverse key xs).
Proof.
  induction xs as [|x xs IH]; [constructor|]. by apply insert_reverse_sorted.
Qed.

Lemma insert_reverse_filter (k : string) (x : A) (l : list A) :
  filter (fun a => key a = k) (insert_reverse key x l) = filter (fun a => key a = k) (x :: l).
Proof.
  induction l as [|y l IH]; cbn [insert_reverse]; [done|].
  destruct (String.ltb (key x) (key y)) eqn:E; [|done].
  apply ltb_neq in E. rewrite (filter_cons _ y), IH, !filter_cons.
  repeat case_decide; congruence.
Qed.

Lemma sorted_reverse_stable (k : string) (xs : list A) :
  filter (fun a => key a = k) (sorted_reverse key xs) = filter (fun a => key a = k) xs.
Proof.
  induction xs as [|x xs IH]; [done|]. cbn [sorted_reverse foldr].
  rewrite insert_reverse_filter, !filter_cons. fold (sorted_reverse key xs).
  by rewrite IH.
Qed.

Lemma sorted_reverse_stable_newest_first (xs : list A) :
  stable_newest_first key xs (sorted_reverse key xs).
Proof.
  split; [apply sorted_reverse_Permutation|].
  split; [apply sorted_reverse_sorted|]. intros k. apply sorted_reverse_stable.
Qed.
End SortedReverse.

Lemma sorted_reverse_ext {A} (key key' : A -> string) (xs : list A) :
  (forall x, key x = key' x) -> sorted_reverse key xs = sorted_reverse key' xs.
Proof.
  intros Hext. induction xs as [|x xs IH]; [done|]. cbn [sorted_reverse foldr].
  fold (sorted_reverse key xs). fold (sorted_reverse key' xs). rewrite IH.
  generalize (sorted_reverse key' xs) as l.
  induction l as [|y l IHl]; cbn [insert_reverse]; [done|].
  by rewrite !Hext, IHl.
Qed.

Lemma created_key_or_empty (created_at : option string) :
  Models.ProjectStats.created_key created_at = created_or_empty created_at.
Proof.
  destruct created_at as [s|]; [|done]. unfold Models.ProjectStats.created_key.
  simpl. by destruct (String.eqb_spec s "") as [->|].
Qed.

(** [sorted(xs, key=lambda x: x.created_at or '', reverse=True)[:limit]]
    for a limit that is not negative. *)
Lemma recent_slice {A} (created_at : A -> option string) (xs : list A) (limit : Z) :
  0 <= limit ->
  exists top rest,
    slice_to (sorted_reverse (fun x => Models.ProjectStats.created_key (created_at x)) xs) limit
      = top /\
    length top = Nat.min (Z.to_nat limit) (length xs) /\
    stable_newest_first (fun x => created_or_empty (created_at x)) xs (top ++ rest).
Proof.
  intros Hlimit.
  rewrite (sorted_reverse_ext _ (fun x => created_or_empty (created_at x)))
    by (intros x; apply created_key_or_empty).
  set (ys := sorted_reverse (fun x => created_or_empty (created_at x)) xs).
  exists (take (Z.to_nat limit) ys), (drop (Z.to_nat limit) ys).
  split; [|split].
  - unfold slice_to. by rewrite (proj2 (Z.leb_le 0 limit) Hlimit).
  - rewrite length_take. f_equal. apply Permutation_length, sorted_reverse_Permutation.
  - rewrite take_drop. apply sorted_reverse_stable_newest_first.
Qed.

Lemma created_or_empty_missing (created_at : option string) :
  created_or_empty created_at = "" <-> created_at = None \/ created_at = Some "".
Proof.
  destruct created_at as [s|]; simpl; split; auto.
  - intros ->. by right.
  - by intros [|[= ->]].
Qed.

Lemma recent_most_recent {A} (created_at : A -> option string) (xs : list A) (limit : Z) :
  0 <= limit ->
  most_recent created_at xs limit
    (slice_to (sorted_reverse (fun x => Models.ProjectStats.created_key (created_at x)) xs)
              limit).
Proof.
  intros Hlimit.
  destruct (recent_slice created_at xs limit Hlimit) as (top & rest & -> & Hlen & Hsorted).
  exists rest. split; [exact Hlen|]. split; [exact Hsorted|].
  intros l1 x l2 y Heq Hy Hx. apply created_or_empty_missing.
  apply created_or_empty_missing in Hx.
  destruct Hsorted as (_ & Hs & _). rewrite Heq in Hs.
  apply StronglySorted_app_1_r in Hs. apply StronglySorted_inv in Hs as [_ Hall].
  rewrite List.Forall_forall in Hall. apply list_elem_of_In in Hy.
  specialize (Hall y Hy). cbn beta in Hall. rewrite Hx in Hall.
  apply String.leb_antisym; [exact Hall | apply leb_empty].
Qed.

(** C7.  For a limit that is not negative, recent activity lists the
    storage dictionaries of the [min limit length] most recently created
    videos, newest first, videos with the same creation time in the order
    of the input, and videos without a creation time last, as the oldest;
    the same for the costs.  With the default limit of 5, ten videos give
    exactly five entries. *)
Theorem get_recent_activity_most_recent :
  forall (self : Models.ProjectStats.t) (limit : Z),
    0 <= limit ->
    let r := Models.ProjectStats.get_recent_activity self limit in
    (exists top,
       Models.ProjectStats.ra_videos r = Models.Video.to_dict <$> top /\
       most_recent Models.Video.created_at (Models.ProjectStats.videos self) limit top) /\
    (exists top,
       Models.ProjectStats.ra_costs r = Models.CostModel.to_dict <$> top /\
       most_recent Models.CostModel.created_at (Models.ProjectStats.costs self) limit top) /\
    (limit = Models.ProjectStats.default_limit ->
     length (Models.ProjectStats.videos self) = 10%nat ->
     length (Models.ProjectStats.ra_videos r) = 5%nat).
Proof.
  intros self limit Hlimit r.
  pose proof (recent_most_recent Models.Video.created_at
                (Models.ProjectStats.videos self) limit Hlimit) as Hv.
  pose proof (recent_most_recent Models.CostModel.created_at
                (Models.ProjectStats.costs self) limit Hlimit) as Hc.
  split; [|split].
  - eexists. split; [reflexivity | exact Hv].
  - eexists. split; [reflexivity | exact Hc].
  - intros -> Hten. unfold r, Models.ProjectStats.get_recent_activity.
    cbn [Models.ProjectStats.ra_videos]. rewrite length_fmap.
    destruct Hv as (rest & Hlen & _). rewrite Hlen, Hten. reflexivity.
Qed.

(** Four videos, two created at the same time and one without a creation
    time, and a limit of 3: the newest comes first, then the two equal
    ones in input order; the undated video is left out. *)
Lemma get_recent_activity_most_recent_witness :
  let video id created :=
    {| Models.Video.id := id; Models.Video.type := "Brand"; Models.Video.status := "VO";
       Models.Video.created_at := created; Models.Video.updated_at := None |} in
  let self :=
    {| Models.ProjectStats.videos :=
         [video "a" (Some "2024-01-02"); video "n" None;
          video "b" (Some "2024-01-02"); video "c" (Some "2024-02-01")];
       Models.ProjectStats.costs := [];
       Models.ProjectStats.budget := 0 |} in
  Models.ProjectStats.ra_videos (Models.ProjectStats.get_recent_activity self 3)
  = Models.Video.to_dict <$>
      [video "c" (Some "2024-02-01"); video "a" (Some "2024-01-02");
       video "b" (Some "2024-01-02")] /\
  exists top,
    Models.ProjectStats.ra_videos (Models.ProjectStats.get_recent_activity self 3)
    = Models.Video.to_dict <$> top /\
    most_recent Models.Video.created_at (Models.ProjectStats.videos self) 3 top.
Proof.
  intros video self. split; [reflexivity|].
  apply (get_recent_activity_most_recent self 3). lia.
Defined.

(** A negative limit is a slice from the end: [xs[:-1]] drops the last
    element of the sorted list, so three videos give two entries. *)
Example get_recent_activity_negative_limit :
  let video id created :=
    {| Models.Video.id := id; Models.Video.type := "Brand"; Models.Video.status := "VO";
       Models.Video.created_at := Some created; Models.Video.updated_at := None |} in
  length (Models.ProjectStats.ra_videos
            (Models.ProjectStats.get_recent_activity
               {| Models.ProjectStats.videos :=
                    [video "a" "2024-01-01"; video "b" "2024-01-02"; video "c" "2024-01-03"];
                  Models.ProjectStats.costs := [];
                  Models.ProjectStats.budget := 0 |} (-1))) = 2%nat.
Proof. reflexivity. Qed.

(** ** Rounding and stripping, applied twice *)

Lemma round_half_even_floor (q : Q) :
  Qfloor q <= round_half_even q <= Qfloor q + 1.
Proof.
  unfold round_half_even.
  destruct (q - inject_Z (Qfloor q) ?= 1 # 2)%Q; [destruct (Z.even _)| |]; lia.
Qed.

Lemma round_half_even_upper (q : Q) (n : Z) :
  (q <= inject_Z n)%Q -> round_half_even q <= n.
Proof.
  intros Hq. unfold round_half_even.
  assert (Hf : Qfloor q <= n).
  { rewrite <- (Qfloor_Z n). by apply Qfloor_resp_le. }
  destruct (q - inject_Z (Qfloor q) ?= 1 # 2)%Q eqn:E; [| lia |].
  - assert (Hlt : Qfloor q < n); [|destruct (Z.even _); lia].
    apply Qeq_alt in E. rewrite Zlt_Qlt. apply Qlt_le_trans with q; [|exact Hq].
    apply Qlt_minus_iff. change (0 < q - inject_Z (Qfloor q))%Q.
    rewrite E. reflexivity.
  - assert (Hlt : Qfloor q < n); [|lia].
    apply Qgt_alt in E. rewrite Zlt_Qlt. apply Qlt_le_trans with q; [|exact Hq].
    apply Qlt_minus_iff. change (0 < q - inject_Z (Qfloor q))%Q.
    apply Qlt_trans with (1 # 2)%Q; [reflexivity | exact E].
Qed.

Lemma round2_range (q : Q) :
  (0 <= q <= 1000000)%Q -> (0 <= round2 q <= 1000000)%Q.
Proof.
  intros [Hlo Hhi]. unfold round2.
  assert (H0 : 0 <= round_half_even (q * 100)).
  { etransitivity; [|apply round_half_even_floor].
    change 0 with (Qfloor 0). apply Qfloor_resp_le.
    apply Qmult_le_0_compat; [exact Hlo | discriminate]. }
  assert (H1 : round_half_even (q * 100) <= 100000000).
  { apply round_half_even_upper.
    change (inject_Z 100000000) with (1000000 * 100)%Q.
    apply Qmult_le_compat_r; [exact Hhi | discriminate]. }
  unfold Qle. simpl. lia.
Qed.

Lemma round2_idempotent (q : Q) : round2 (round2 q) = round2 q.
Proof.
  unfold round2. f_equal. generalize (round_half_even (q * 100)) as n. intros n.
  unfold round_half_even.
  assert (Hf : Qfloor ((n # 100) * 100) = n).
  { unfold Qmult, Qfloor. simpl. apply Z.div_mul. lia. }
  rewrite Hf.
  assert (E : ((n # 100) * 100 - inject_Z n ?= 1 # 2)%Q = Lt); [|by rewrite E].
  rewrite <- Qlt_alt. unfold Qlt, Qminus, Qplus, Qmult, Qopp, inject_Z. simpl. lia.
Qed.

Lemma lstrip_chars_suffix (l : list ascii) : exists p, l = (p ++ lstrip_chars l)%list.
Proof.
  induction l as [|c l [p Hp]]; [by exists []|]. cbn [lstrip_chars].
  destruct (isspace c); [|by exists []].
  exists (c :: p). simpl. by rewrite <- Hp.
Qed.

Lemma lstrip_chars_head (l : list ascii) :
  match lstrip_chars l with [] => True | c :: _ => isspace c = false end.
Proof.
  induction l as [|c l IH]; [done|]. cbn [lstrip_chars].
  by destruct (isspace c) eqn:E.
Qed.

Lemma lstrip_chars_id (l : list ascii) :
  match l with [] => True | c :: _ => isspace c = false end -> lstrip_chars l = l.
Proof. destruct l as [|c l]; [done|]. simpl. by intros ->. Qed.

Lemma strip_chars_idempotent (l : list ascii) :
  let core l := rev (lstrip_chars (rev (lstrip_chars l))) in
  core (core l) = core l.
Proof.
  intros core. unfold core.
  set (a := lstrip_chars l). set (b := lstrip_chars (rev a)).
  assert (Ha : lstrip_chars (rev b) = rev b).
  { apply lstrip_chars_id.
    destruct (lstrip_chars_suffix (rev a)) as [p Hp]. fold b in Hp.
    apply (f_equal (@rev ascii)) in Hp. rewrite rev_involutive, rev_app_distr in Hp.
    pose proof (lstrip_chars_head l) as Hh. fold a in Hh.
    destruct (rev b) as [|c t]; [done|]. rewrite Hp in Hh. exact Hh. }
  rewrite Ha, rev_involutive. f_equal. apply lstrip_chars_id, lstrip_chars_head.
Qed.

Lemma strip_idempotent (s : string) : strip (strip s) = strip s.
Proof.
  unfold strip. rewrite list_ascii_of_string_of_list_ascii.
  f_equal. apply strip_chars_idempotent.
Qed.

Lemma length_string_of_list_ascii (l : list ascii) :
  String.length (string_of_list_ascii l) = length l.
Proof. induction l as [|c l IH]; simpl; [done | by rewrite IH]. Qed.

Lemma length_list_ascii_of_string (s : string) :
  length (list_ascii_of_string s) = String.length s.
Proof. induction s as [|c s IH]; simpl; [done | by rewrite IH]. Qed.

Lemma lstrip_chars_length (l : list ascii) : (length (lstrip_chars l) <= length l)%nat.
Proof.
  destruct (lstrip_chars_suffix l) as [p Hp]. rewrite Hp at 2. rewrite length_app. lia.
Qed.

Lemma len_strip (s : string) : len (strip s) <= len s.
Proof.
  unfold len, strip. rewrite length_string_of_list_ascii, length_rev.
  apply inj_le. etransitivity; [apply lstrip_chars_length|].
  rewrite length_rev. etransitivity; [apply lstrip_chars_length|].
  by rewrite length_list_ascii_of_string.
Qed.

(** What the constructor of [CostModel] guarantees about the record. *)
Lemma constructed_cost_invariants (c : Models.CostModel.t) :
  constructed_cost c ->
  negb (truthy (VStr (Models.CostModel.type c)))
    || negb (str_in (Models.CostModel.type c) Models.CostModel.VALID_TYPES) = false /\
  (exists q, (0 <= q <= 1000000)%Q /\ Models.CostModel.amount c = round2 q) /\
  negb (truthy (VStr (Models.CostModel.currency c)))
    || negb (str_in (Models.CostModel.currency c) Models.CostModel.VALID_CURRENCIES) = false /\
  (exists n, len n <= 500 /\ Models.CostModel.notes c = strip n) /\
  (exists s, Models.CostModel.created_at c = Some s /\ s <> "").
Proof.
  intros (float_of_str & str_of & id & type & amount & currency & notes & created & now
          & Hnow & Hinit).
  unfold Models.CostModel.__init__ in Hinit.
  destruct type as [|ty| |]; try discriminate Hinit.
  unfold Models.CostModel._validate_type in Hinit.
  destruct (negb (truthy (VStr ty)) || negb (str_in ty Models.CostModel.VALID_TYPES)) eqn:Hty;
    [discriminate Hinit|].
  cbn [mbind result_bind] in Hinit.
  unfold Models.CostModel._validate_amount in Hinit.
  destruct (Models.CostModel.float float_of_str amount) as [q|e];
    [|destruct e; discriminate Hinit].
  destruct (Qltb q 0) eqn:Hneg; [discriminate Hinit|].
  destruct (Qltb 1000000 q) eqn:Hbig; [discriminate Hinit|].
  cbn [mbind result_bind] in Hinit.
  destruct currency as [|cur| |]; try discriminate Hinit.
  unfold Models.CostModel._validate_currency in Hinit.
  destruct (negb (truthy (VStr cur)) || negb (str_in cur Models.CostModel.VALID_CURRENCIES))
    eqn:Hcur; [discriminate Hinit|].
  cbn [mbind result_bind] in Hinit.
  unfold Models.CostModel._validate_notes in Hinit.
  set (n := match notes with VStr s => s | _ => if truthy notes then str_of notes else "" end)
    in Hinit.
  destruct (500 <? len n) eqn:Hlen; [discriminate Hinit|].
  cbn [mbind result_bind] in Hinit. injection Hinit as <-.
  cbn [Models.CostModel.type Models.CostModel.amount Models.CostModel.currency
       Models.CostModel.notes Models.CostModel.created_at].
  apply Qltb_ge in Hneg, Hbig. apply Z.ltb_ge in Hlen.
  split; [exact Hty|]. split; [by exists q|]. split; [exact Hcur|].
  split; [by exists n|].
  destruct created as [s|]; simpl.
  - destruct (String.eqb_spec s "") as [->|Hs]; simpl; by eexists.
  - by eexists.
Qed.

(** C4, the Cost half.  A cost record built by the constructor is given
    back, field for field, by [from_dict] from its storage dictionary. *)
Lemma CostModel_from_dict_to_dict (c : Models.CostModel.t) :
  constructed_cost c ->
  forall (float_of_str : string -> option Q) (str_of : value -> string) (now : string),
    Models.CostModel.from_dict float_of_str str_of (Models.CostModel.to_dict c) now = Ok c.
Proof.
  intros Hc float_of_str str_of now.
  destruct (constructed_cost_invariants c Hc)
    as (Hty & (q & Hq & Hamount) & Hcur & (n & Hn & Hnotes) & (s & Hcreated & Hs)).
  destruct c as [id ty amount cur notes created].
  cbn [Models.CostModel.type Models.CostModel.amount Models.CostModel.currency
       Models.CostModel.notes Models.CostModel.created_at] in *.
  subst amount notes created.
  unfold Models.CostModel.from_dict, Models.CostModel.to_dict, dict_getitem.
  cbn [Models.CostModel.id Models.CostModel.type Models.CostModel.amount
       Models.CostModel.currency Models.CostModel.notes Models.CostModel.created_at].
  set (d := <["id" := of_opt_int id]> _).
  assert (d !! "id" = Some (of_opt_int id)) as -> by reflexivity.
  assert (d !! "type" = Some (VStr ty)) as -> by reflexivity.
  assert (d !! "amount" = Some (VFloat (round2 q))) as -> by reflexivity.
  assert (d !! "currency" = Some (VStr cur)) as -> by reflexivity.
  assert (d !! "notes" = Some (VStr (strip n))) as -> by reflexivity.
  assert (d !! "created_at" = Some (VStr s)) as -> by reflexivity.
  clear d. cbn [default of_opt_str]. unfold Datatypes.id.
  assert (Models.CostModel.as_opt_int (of_opt_int id) = Ok id) as -> by (by destruct id).
  cbn [mbind result_bind Models.CostModel.as_opt_str].
  unfold Models.CostModel.__init__, Models.CostModel._validate_type,
    Models.CostModel._validate_currency, Models.CostModel._validate_amount,
    Models.CostModel._validate_notes, Models.CostModel.float.
  rewrite Hty, Hcur. cbn [mbind result_bind].
  destruct (round2_range q Hq) as [Hlo Hhi].
  rewrite (proj2 (Qltb_ge _ _) Hlo), (proj2 (Qltb_ge _ _) Hhi).
  cbn [mbind result_bind].
  assert ((500 <? len (strip n)) = false) as ->.
  { apply Z.ltb_ge. pose proof (len_strip n). lia. }
  cbn [mbind result_bind]. rewrite round2_idempotent, strip_idempotent.
  cbn [of_opt_str truthy]. destruct (String.eqb_spec s "") as [->|_]; [done|].
  reflexivity.
Qed.

(** A cost as the CostModel constructor builds it from 0.125, with
    notes to strip, comes back unchanged. *)
Example CostModel_round_trip :
  forall c,
    Models.CostModel.__init__ (fun _ => None) (fun _ => "")
      (Some 7) (VStr "Freelancer") (VFloat (1 # 8)) (VStr "PKR") (VStr "  editor ") None
      "2024-06-01T12:00:00" = Ok c ->
    c = {| Models.CostModel.id := Some 7; Models.CostModel.type := "Freelancer";
           Models.CostModel.amount := (12 # 100)%Q; Models.CostModel.currency := "PKR";
           Models.CostModel.notes := "editor";
           Models.CostModel.created_at := Some "2024-06-01T12:00:00" |} /\
    Models.CostModel.from_dict (fun _ => None) (fun _ => "")
      (Models.CostModel.to_dict c) "2025-01-01T00:00:00" = Ok c.
Proof.
  intros c Hc. split; [vm_compute in Hc; congruence|].
  apply CostModel_from_dict_to_dict.
  exists (fun _ => None), (fun _ => ""), (Some 7), (VStr "Freelancer"), (VFloat (1 # 8)),
    (VStr "PKR"), (VStr "  editor "), None, "2024-06-01T12:00:00".
  split; [discriminate | exact Hc].
Qed.

(** * Further properties of the aggregator *)

(** ** Counting videos *)

Lemma length_filter_le {A} (f : A -> bool) (l : list A) :
  (length (List.filter f l) <= length l)%nat.
Proof.
  induction l as [|x l IH]; [done|]. cbn [List.filter]. destruct (f x); simpl; lia.
Qed.

Lemma length_filter_all {A} (f : A -> bool) (l : list A) :
  length (List.filter f l) = length l <-> Forall (fun x => f x = true) l.
Proof.
  induction l as [|x l IH]; [by split|]. cbn [List.filter].
  pose proof (length_filter_le f l) as Hle. rewrite Forall_cons.
  destruct (f x) eqn:E; simpl.
  - rewrite <- IH. split; [intros [= H]; by split | intros [_ H]; by rewrite H].
  - split; [lia | by intros [? _]].
Qed.

(** The number of completed videos is between 0 and the total; the
    pending ones are the rest, and there is none pending exactly when
    every video is at Final. *)
Theorem video_counts_consistent (self : Models.ProjectStats.t) :
  0 <= Models.ProjectStats.get_completed_videos self
    <= Models.ProjectStats.get_total_videos self /\
  Models.ProjectStats.get_pending_videos self
    = Models.ProjectStats.get_total_videos self
      - Models.ProjectStats.get_completed_videos self /\
  0 <= Models.ProjectStats.get_pending_videos self /\
  (Models.ProjectStats.get_pending_videos self = 0 <->
   Forall (fun v => Models.Video.status v = "Final") (Models.ProjectStats.videos self)).
Proof.
  unfold Models.ProjectStats.get_pending_videos, Models.ProjectStats.get_completed_videos,
    Models.ProjectStats.get_total_videos.
  pose proof (length_filter_le Models.Video.is_completed (Models.ProjectStats.videos self)).
  split; [lia|]. split; [done|]. split; [lia|].
  transitivity (length (List.filter Models.Video.is_completed (Models.ProjectStats.videos self))
                = length (Models.ProjectStats.videos self)); [lia|].
  rewrite length_filter_all. apply Forall_iff. intros v.
  unfold Models.Video.is_completed. apply String.eqb_eq.
Qed.

(** The completion rate is 0 for an empty list of videos, lies between 0
    and 100 for every list, and is 100 when there are videos and all of
    them are at Final. *)
Theorem get_completion_rate_bounds (self : Models.ProjectStats.t) :
  (Models.ProjectStats.videos self = [] ->
   Models.ProjectStats.get_completion_rate self = 0%Q) /\
  (0 <= Models.ProjectStats.get_completion_rate self <= 100)%Q /\
  (Models.ProjectStats.videos self <> [] ->
   Forall (fun v => Models.Video.status v = "Final") (Models.ProjectStats.videos self) ->
   (Models.ProjectStats.get_completion_rate self == 100)%Q).
Proof.
  assert (Hct : 0 <= Models.ProjectStats.get_completed_videos self
                  <= Models.ProjectStats.get_total_videos self).
  { unfold Models.ProjectStats.get_completed_videos, Models.ProjectStats.get_total_videos.
    pose proof (length_filter_le Models.Video.is_completed (Models.ProjectStats.videos self)).
    lia. }
  assert (Hall : Forall (fun v => Models.Video.status v = "Final")
                        (Models.ProjectStats.videos self) ->
                 Models.ProjectStats.get_completed_videos self
                 = Models.ProjectStats.get_total_videos self).
  { intros Hfinal.
    unfold Models.ProjectStats.get_completed_videos, Models.ProjectStats.get_total_videos.
    f_equal. apply length_filter_all. eapply Forall_impl; [exact Hfinal|].
    intros v Hv. unfold Models.Video.is_completed. by apply String.eqb_eq. }
  destruct Hct as [Hc0 Hct].
  unfold Models.ProjectStats.get_completion_rate.
  split; [|split].
  - intros Hnil. unfold Models.ProjectStats.get_total_videos. by rewrite Hnil.
  - destruct (Z.eqb_spec (Models.ProjectStats.get_total_videos self) 0) as [|Hne];
      [split; discriminate|].
    set (c := Models.ProjectStats.get_completed_videos self) in *.
    set (t := Models.ProjectStats.get_total_videos self) in *.
    assert (Ht : (0 < inject_Z t)%Q) by (rewrite <- (Zlt_Qlt 0); lia).
    split.
    + apply Qmult_le_0_compat; [|discriminate].
      apply Qle_shift_div_l; [done|]. rewrite Qmult_0_l. rewrite <- (Zle_Qle 0). lia.
    + apply Qle_trans with (1 * 100)%Q; [|discriminate].
      apply Qmult_le_compat_r; [|discriminate].
      apply Qle_shift_div_r; [done|]. rewrite Qmult_1_l. rewrite <- Zle_Qle. lia.
  - intros Hne Hfinal. apply Hall in Hfinal.
    assert (Ht : Models.ProjectStats.get_total_videos self <> 0).
    { unfold Models.ProjectStats.get_total_videos.
      destruct (Models.ProjectStats.videos self); [done | simpl; lia]. }
    destruct (Z.eqb_spec (Models.ProjectStats.get_total_videos self) 0) as [|_]; [done|].
    rewrite Hfinal.
    unfold Qdiv. rewrite Qmult_inv_r; [reflexivity|].
    intros H. apply Ht. apply (inject_Z_injective _ 0). exact H.
Qed.

(** Two Final videos out of two. *)
Lemma get_completion_rate_bounds_witness :
  let video id :=
    {| Models.Video.id := id; Models.Video.type := "Brand"; Models.Video.status := "Final";
       Models.Video.created_at := None; Models.Video.updated_at := None |} in
  (Models.ProjectStats.get_completion_rate
     {| Models.ProjectStats.videos := [video "a"; video "b"];
        Models.ProjectStats.costs := []; Models.ProjectStats.budget := 0 |} == 100)%Q.
Proof.
  intros video.
  apply (get_completion_rate_bounds
           {| Models.ProjectStats.videos := [video "a"; video "b"];
              Models.ProjectStats.costs := []; Models.ProjectStats.budget := 0 |});
    [discriminate | repeat constructor].
Defined.

(** One video at Final and one at VO: one pending, so not all are Final. *)
Lemma video_counts_consistent_witness :
  let video id st :=
    {| Models.Video.id := id; Models.Video.type := "Brand"; Models.Video.status := st;
       Models.Video.created_at := None; Models.Video.updated_at := None |} in
  let self :=
    {| Models.ProjectStats.videos := [video "a" "Final"; video "b" "VO"];
       Models.ProjectStats.costs := []; Models.ProjectStats.budget := 0 |} in
  ~ Forall (fun v => Models.Video.status v = "Final") (Models.ProjectStats.videos self).
Proof.
  intros video self H.
  apply (proj2 (proj2 (proj2 (video_counts_consistent self)))) in H. discriminate H.
Defined.

(** ** Distributions by status and by type *)


Section CountBy.
Context {A : Type} (key : A -> string) (keys : list string).






End CountBy.





(** ** Cost totals *)

Lemma total_costs_loop (costs : list Models.CostModel.t) (totals : gmap string Q) :
  exists d,
    for_ (fun totals cost =>
            let totals :=
              match totals !! Models.CostModel.currency cost with
              | None => <[Models.CostModel.currency cost := 0%Q]> totals
              | Some _ => totals
              end in
            dict_iadd Qplus (Models.CostModel.currency cost) (Models.CostModel.amount cost) totals)
         costs totals = Ok d /\
    forall cur, d !! cur =
      match List.filter (fun c => String.eqb (Models.CostModel.currency c) cur) costs with
      | [] => totals !! cur
      | l => Some (foldl Qplus (default 0%Q (totals !! cur)) (Models.CostModel.amount <$> l))
      end.
Proof.
  revert totals. induction costs as [|c costs IH]; intros totals; cbn [for_ List.filter].
  - by exists totals.
  - cbn beta zeta. set (k := Models.CostModel.currency c).
    set (x := default 0%Q (totals !! k)).
    set (totals1 := match totals !! k with None => <[k := 0%Q]> totals | Some _ => totals end).
    assert (H1 : totals1 !! k = Some x).
    { unfold totals1, x. destruct (totals !! k) eqn:E; [done|]. apply lookup_insert_eq. }
    assert (H1' : forall cur, cur <> k -> totals1 !! cur = totals !! cur).
    { intros cur Hne. unfold totals1. destruct (totals !! k); [done|].
      by apply lookup_insert_ne. }
    rewrite (dict_iadd_Some _ _ _ _ _ H1). cbn [mbind result_bind].
    destruct (IH (<[k := (x + Models.CostModel.amount c)%Q]> totals1)) as (d & Hd & Hlook).
    exists d. split; [exact Hd|]. intros cur. rewrite Hlook.
    destruct (String.eqb_spec k cur) as [<-|Hne].
    + rewrite lookup_insert_eq. cbn [fmap list_fmap foldr foldl default].
      by destruct (List.filter _ costs).
    + rewrite lookup_insert_ne by done. rewrite H1' by done. reflexivity.
Qed.

(** [get_total_costs_by_currency] never raises.  A currency that no cost
    has is absent from the result; every other currency is mapped to the
    sum of the amounts of its costs, added in list order. *)
Theorem get_total_costs_by_currency_spec (self : Models.ProjectStats.t) :
  exists d,
    Models.ProjectStats.get_total_costs_by_currency self = Ok d /\
    forall cur,
      let of_cur := List.filter (fun c => String.eqb (Models.CostModel.currency c) cur)
                                (Models.ProjectStats.costs self) in
      (of_cur = [] -> d !! cur = None) /\
      (of_cur <> [] -> d !! cur = Some (Py.sum (Models.CostModel.amount <$> of_cur))).
Proof.
  destruct (total_costs_loop (Models.ProjectStats.costs self) ∅) as (d & Hd & Hlook).
  exists d. split; [exact Hd|]. intros cur of_cur. rewrite Hlook. fold of_cur.
  split; intros H.
  - by rewrite H.
  - by destruct of_cur.
Qed.

(** Two USD costs and no PKR cost: USD has the sum, PKR is no key. *)
Lemma get_total_costs_by_currency_spec_witness :
  let cost amt :=
    {| Models.CostModel.id := None; Models.CostModel.type := "Tool";
       Models.CostModel.amount := amt; Models.CostModel.currency := "USD";
       Models.CostModel.notes := ""; Models.CostModel.created_at := Some "2024-05-01" |} in
  exists d,
    Models.ProjectStats.get_total_costs_by_currency
      {| Models.ProjectStats.videos := []; Models.ProjectStats.costs := [cost 30%Q; cost 12%Q];
         Models.ProjectStats.budget := 0 |} = Ok d /\
    d !! "PKR" = None /\ d !! "USD" = Some (Py.sum [30%Q; 12%Q]).
Proof.
  intros cost.
  destruct (get_total_costs_by_currency_spec
              {| Models.ProjectStats.videos := [];
                 Models.ProjectStats.costs := [cost 30%Q; cost 12%Q];
                 Models.ProjectStats.budget := 0 |}) as (d & Hd & Hlook).
  exists d. split; [exact Hd|]. split.
  - apply (proj1 (Hlook "PKR")). reflexivity.
  - apply (proj2 (Hlook "USD")). discriminate.
Defined.

Lemma total_costs_ok (self : Models.ProjectStats.t) :
  exists d, Models.ProjectStats.get_total_costs_by_currency self = Ok d.
Proof.
  destruct (total_costs_loop (Models.ProjectStats.costs self) ∅) as (d & Hd & _).
  by exists d.
Qed.

Lemma total_costs_default (self : Models.ProjectStats.t) (d : gmap string Q) (cur : string) :
  Models.ProjectStats.get_total_costs_by_currency self = Ok d ->
  default 0%Q (d !! cur)
  = Py.sum (Models.CostModel.amount <$>
              List.filter (fun c => String.eqb (Models.CostModel.currency c) cur)
                          (Models.ProjectStats.costs self)).
Proof.
  intros Hd. destruct (total_costs_loop (Models.ProjectStats.costs self) ∅) as (d' & Hd' & Hlook).
  change (Models.ProjectStats.get_total_costs_by_currency self = Ok d') in Hd'.
  rewrite Hd in Hd'. injection Hd' as Heq. subst d'. rewrite Hlook.
  by destruct (List.filter _ _).
Qed.

(** [get_average_cost_per_video] never raises and has the two keys USD
    and PKR.  Without videos both are 0, whatever the costs are; with
    videos each is the sum of the amounts in that currency divided by the
    number of videos. *)
Theorem get_average_cost_per_video_spec (self : Models.ProjectStats.t) :
  exists d,
    Models.ProjectStats.get_average_cost_per_video self = Ok d /\
    (forall k, is_Some (d !! k) <-> k = "USD" \/ k = "PKR") /\
    (Models.ProjectStats.videos self = [] -> d !! "USD" = Some 0%Q /\ d !! "PKR" = Some 0%Q) /\
    (Models.ProjectStats.videos self <> [] ->
     forall cur, cur = "USD" \/ cur = "PKR" ->
       d !! cur =
       Some (Py.sum (Models.CostModel.amount <$>
                       List.filter (fun c => String.eqb (Models.CostModel.currency c) cur)
                                   (Models.ProjectStats.costs self))
             / inject_Z (Z.of_nat (length (Models.ProjectStats.videos self))))%Q).
Proof.
  assert (Hkeys : forall (a b : Q) k,
            is_Some ((<["USD" := a]> (<["PKR" := b]> (∅ : gmap string Q))) !! k)
            <-> k = "USD" \/ k = "PKR").
  { intros a b k. destruct (decide (k = "USD")) as [->|H1].
    - rewrite lookup_insert_eq. split; [by left | by eexists].
    - rewrite lookup_insert_ne by done. destruct (decide (k = "PKR")) as [->|H2].
      + rewrite lookup_insert_eq. split; [by right | by eexists].
      + rewrite lookup_insert_ne, lookup_empty by done.
        split; [by intros [? ?] | by intros [|]]. }
  unfold Models.ProjectStats.get_average_cost_per_video, Models.ProjectStats.get_total_videos.
  destruct (Models.ProjectStats.videos self) as [|v vs] eqn:Ev.
  - eexists. split; [reflexivity|]. split; [apply Hkeys|]. split; [by split | done].
  - destruct (total_costs_ok self) as (totals & Ht).
    destruct (Z.eqb_spec (Z.of_nat (length (v :: vs))) 0) as [H0|_]; [simpl in H0; lia|].
    rewrite Ht. cbn [mbind result_bind]. eexists. split; [reflexivity|].
    split; [apply Hkeys|]. split; [done|].
    intros _ cur [-> | ->].
    + rewrite lookup_insert_eq. by rewrite (total_costs_default self totals "USD" Ht).
    + rewrite lookup_insert_ne, lookup_insert_eq by done.
      by rewrite (total_costs_default self totals "PKR" Ht).
Qed.

(** Costs without videos: both averages are 0. *)
Lemma get_average_cost_per_video_spec_witness :
  exists d,
    Models.ProjectStats.get_average_cost_per_video
      {| Models.ProjectStats.videos := [];
         Models.ProjectStats.costs :=
           [ {| Models.CostModel.id := None; Models.CostModel.type := "Tool";
                Models.CostModel.amount := 30; Models.CostModel.currency := "USD";
                Models.CostModel.notes := ""; Models.CostModel.created_at := None |} ];
         Models.ProjectStats.budget := 0 |} = Ok d /\
    d !! "USD" = Some 0%Q /\ d !! "PKR" = Some 0%Q.
Proof.
  destruct (get_average_cost_per_video_spec
    {| Models.ProjectStats.videos := [];
       Models.ProjectStats.costs :=
         [ {| Models.CostModel.id := None; Models.CostModel.type := "Tool";
              Models.CostModel.amount := 30; Models.CostModel.currency := "USD";
              Models.CostModel.notes := ""; Models.CostModel.created_at := None |} ];
       Models.ProjectStats.budget := 0 |}) as (d & Hd & _ & Hempty & _).
  exists d. split; [exact Hd|]. by apply Hempty.
Defined.

(** ** The figures agree with each other *)









(** * The Video class of models.py *)

(** The constructor succeeds exactly for an id that is a string with
    something left after stripping, of at most 100 characters then, a type
    of the list of types and a status of the list of statuses.  The video
    it builds has the stripped id, the given type and status, and no
    timestamps.  When it fails, it fails with [ValidationError]. *)
Theorem Video_init_spec (id type status : value) :
  (forall v, Models.Video.__init__ id type status = Ok v ->
     valid_model_video v /\
     Models.Video.created_at v = None /\ Models.Video.updated_at v = None /\
     exists s, id = VStr s /\ Models.Video.id v = strip s /\
       type = VStr (Models.Video.type v) /\ status = VStr (Models.Video.status v)) /\
  (forall e, Models.Video.__init__ id type status = Raise e ->
     exists msg, e = ValidationError msg) /\
  (forall s ty st,
     id = VStr s -> type = VStr ty -> status = VStr st ->
     strip s <> "" -> len (strip s) <= 100 ->
     ty ∈ Models.Video.VALID_TYPES -> st ∈ Models.Video.VALID_STATUSES ->
     Models.Video.__init__ id type status
     = Ok {| Models.Video.id := strip s; Models.Video.type := ty; Models.Video.status := st;
             Models.Video.created_at := None; Models.Video.updated_at := None |}).
Proof.
  assert (Hstrip_empty : strip "" = "") by reflexivity.
  unfold Models.Video.__init__, Models.Video._validate_id, Models.Video._validate_type,
    Models.Video._validate_status.
  split; [|split].
  - intros v.
    destruct id as [|s| |]; try discriminate. cbn [truthy].
    destruct (String.eqb_spec s "") as [->|Hs]; [discriminate|]. cbn [negb].
    destruct (String.eqb_spec (strip s) "") as [E|Hne]; [discriminate|]. cbn [negb].
    destruct (100 <? len (strip s)) eqn:Hlen; [discriminate|]. cbn [mbind result_bind].
    destruct type as [|ty| |]; try discriminate.
    destruct (negb (truthy (VStr ty)) || negb (str_in ty Models.Video.VALID_TYPES)) eqn:Hty;
      [discriminate|]. cbn [mbind result_bind].
    destruct status as [|st| |]; try discriminate.
    destruct (negb (truthy (VStr st)) || negb (str_in st Models.Video.VALID_STATUSES)) eqn:Hst;
      [discriminate|]. cbn [mbind result_bind].
    intros [= <-]. apply orb_false_elim in Hty as [_ Hty], Hst as [_ Hst].
    apply negb_false_iff, str_in_true in Hty, Hst. apply Z.ltb_ge in Hlen.
    split; [|split; [done|split; [done|by exists s]]].
    unfold valid_model_video. cbn. split; [done|]. split; [apply strip_idempotent|].
    by split.
  - intros e.
    destruct id as [|s| |]; try (intros [= <-]; by eexists). cbn [truthy].
    destruct (negb (negb (String.eqb s ""))); [intros [= <-]; by eexists|].
    destruct (negb (negb (String.eqb (strip s) ""))); [intros [= <-]; by eexists|].
    destruct (100 <? len (strip s)); [intros [= <-]; by eexists|]. cbn [mbind result_bind].
    destruct type as [|ty| |]; try (intros [= <-]; by eexists).
    destruct (negb (truthy (VStr ty)) || negb (str_in ty Models.Video.VALID_TYPES));
      [intros [= <-]; by eexists|]. cbn [mbind result_bind].
    destruct status as [|st| |]; try (intros [= <-]; by eexists).
    destruct (negb (truthy (VStr st)) || negb (str_in st Models.Video.VALID_STATUSES));
      [intros [= <-]; by eexists|]. discriminate.
  - intros s ty st -> -> -> Hne Hlen Hty Hst. cbn [truthy].
    assert (Hs : s <> "") by (intros ->; by apply Hne).
    apply String.eqb_neq in Hs, Hne. rewrite Hs, Hne. cbn [negb].
    rewrite (proj2 (Z.ltb_ge _ _) Hlen). cbn [mbind result_bind].
    assert (Hty' : ty <> "").
    { intros ->. revert Hty. by apply (bool_decide_unpack _). }
    assert (Hst' : st <> "").
    { intros ->. revert Hst. by apply (bool_decide_unpack _). }
    apply String.eqb_neq in Hty', Hst'. apply str_in_true in Hty, Hst.
    rewrite Hty', Hst', Hty, Hst. reflexivity.
Qed.

(** An id with blanks around it is stored stripped; a blank id and a
    status of the other module are refused. *)
Lemma Video_init_spec_witness :
  Models.Video.__init__ (VStr "  intro-01 ") (VStr "Brand") (VStr "Script")
  = Ok {| Models.Video.id := "intro-01"; Models.Video.type := "Brand";
          Models.Video.status := "Script";
          Models.Video.created_at := None; Models.Video.updated_at := None |} /\
  (forall e, Models.Video.__init__ (VStr "   ") (VStr "Brand") (VStr "Script") = Raise e ->
     exists msg, e = ValidationError msg).
Proof.
  split.
  - apply (proj2 (proj2 (Video_init_spec (VStr "  intro-01 ") (VStr "Brand") (VStr "Script")))
             "  intro-01 " "Brand" "Script");
      try reflexivity; try discriminate; by apply (bool_decide_unpack _).
  - apply (proj1 (proj2 (Video_init_spec (VStr "   ") (VStr "Brand") (VStr "Script")))).
Defined.

(** On a valid video, [update_status] with a status of the list sets the
    status and the update time and touches nothing else; with anything
    else it raises [ValidationError] and the video is as before.  Either
    way the video is still valid. *)
Theorem update_status_spec (self : Models.Video.t) (new_status : value) (now : string) :
  valid_model_video self ->
  ((exists s, new_status = VStr s /\ s ∈ Models.Video.VALID_STATUSES /\
      Models.Video.update_status self new_status now
      = (Ok tt, {| Models.Video.id := Models.Video.id self;
                   Models.Video.type := Models.Video.type self;
                   Models.Video.status := s;
                   Models.Video.created_at := Models.Video.created_at self;
                   Models.Video.updated_at := Some now |})) \/
   ((forall s, new_status = VStr s -> s ∉ Models.Video.VALID_STATUSES) /\
    exists msg,
      Models.Video.update_status self new_status now = (Raise (ValidationError msg), self))) /\
  valid_model_video (snd (Models.Video.update_status self new_status now)).
Proof.
  intros Hvalid.
  assert (Hcases :
    (exists s, new_status = VStr s /\ s ∈ Models.Video.VALID_STATUSES) \/
    (forall s, new_status = VStr s -> s ∉ Models.Video.VALID_STATUSES)).
  { destruct new_status as [|s| |];
      [right; intros ? [=] | | right; intros ? [=] | right; intros ? [=]].
    destruct (decide (s ∈ Models.Video.VALID_STATUSES)); [left; by exists s|].
    right. by intros ? [= <-]. }
  destruct Hcases as [(s & -> & Hs)|Hout].
  - assert (E : Models.Video._validate_status (VStr s) = Ok s).
    { unfold Models.Video._validate_status. cbn [truthy].
      assert (Hne : s <> "") by (intros ->; revert Hs; by apply (bool_decide_unpack _)).
      apply String.eqb_neq in Hne. apply str_in_true in Hs. by rewrite Hne, Hs. }
    unfold Models.Video.update_status. rewrite E. split.
    + left. exists s. by split.
    + destruct Hvalid as (H1 & H2 & H3 & H4 & _). cbn. by repeat split.
  - destruct (update_status_rejects_invalid self new_status now Hout) as [msg E].
    rewrite E. split; [|exact Hvalid]. right. split; [exact Hout|]. by exists msg.
Qed.

(** A video at VO is moved to Visuals. *)
Lemma update_status_spec_witness :
  let v := {| Models.Video.id := "v1"; Models.Video.type := "Brand";
              Models.Video.status := "VO";
              Models.Video.created_at := None; Models.Video.updated_at := None |} in
  valid_model_video (snd (Models.Video.update_status v (VStr "Visuals") "2024-03-02T09:00:00")).
Proof.
  intros v. apply (update_status_spec v (VStr "Visuals") "2024-03-02T09:00:00").
  unfold valid_model_video. cbn.
  repeat split; try discriminate; try lia; by apply (bool_decide_unpack _).
Defined.

(** ** Progress and completion *)

(** For a video whose status is in its progression list, the progress is
    above 0, and it is 100 exactly when the video is completed; this holds
    for the type-dependent lists of [database.py] and for the single list
    of [models.py]. *)
Theorem progress_full_iff_completed :
  (forall v : Database.Video.t,
     Database.Video.status v ∈
       (if String.eqb (Database.Video.type v) "Testimonial"
        then Database.Video.TESTIMONIAL_STATUSES else Database.Video.VALID_STATUSES) ->
     exists r, Database.Video.get_progress_percentage v = Ok r /\
       (0 < r)%Q /\ ((r == 100)%Q <-> Database.Video.is_completed v = true)) /\
  (forall v : Models.Video.t,
     Models.Video.status v ∈ Models.Video.VALID_STATUSES ->
     exists r, Models.Video.get_progress_percentage v = Ok r /\
       (0 < r)%Q /\ ((r == 100)%Q <-> Models.Video.is_completed v = true)).
Proof.
  split.
  - intros [id type status created updated]. cbn [Database.Video.type Database.Video.status].
    unfold Database.Video.get_progress_percentage, Database.Video.is_completed.
    cbn [Database.Video.type Database.Video.status].
    destruct (String.eqb type "Testimonial"); intros Hin;
      repeat (apply elem_of_cons in Hin as [->|Hin];
              [eexists; split; [reflexivity|]; split; [reflexivity|];
               split; intros H; done || discriminate H|]);
      by apply elem_of_nil in Hin.
  - intros [id type status created updated]. cbn [Models.Video.status].
    unfold Models.Video.get_progress_percentage, Models.Video.is_completed.
    cbn [Models.Video.status]. intros Hin.
    repeat (apply elem_of_cons in Hin as [->|Hin];
            [eexists; split; [reflexivity|]; split; [reflexivity|];
             split; intros H; done || discriminate H|]);
      by apply elem_of_nil in Hin.
Qed.

(** A Testimonial video at Final, and one at Visuals. *)
Lemma progress_full_iff_completed_witness :
  let video st :=
    {| Database.Video.id := "t1"; Database.Video.type := "Testimonial";
       Database.Video.status := st;
       Database.Video.created_at := None; Database.Video.updated_at := None |} in
  (exists r, Database.Video.get_progress_percentage (video "Final") = Ok r /\ (r == 100)%Q) /\
  (exists r, Database.Video.get_progress_percentage (video "Visuals") = Ok r /\ ~ (r == 100)%Q).
Proof.
  intros video. split.
  - destruct (proj1 progress_full_iff_completed (video "Final")) as (r & Hr & _ & Hfull).
    { by apply (bool_decide_unpack _). }
    exists r. split; [exact Hr|]. by apply Hfull.
  - destruct (proj1 progress_full_iff_completed (video "Visuals")) as (r & Hr & _ & Hfull).
    { by apply (bool_decide_unpack _). }
    exists r. split; [exact Hr|]. intros H. apply Hfull in H. discriminate H.
Defined.

(** * The CostModel class *)




(** A cost that the constructor has built, at a clock reading that is not
    empty, is given back field for field by [from_dict] from its storage
    dictionary, whatever the builtins and the clock are at that time. *)
Theorem CostModel_storage_round_trip
    (float_of_str float_of_str' : string -> option Q) (str_of str_of' : value -> string)
    (id : option Z) (type amount currency notes : value) (created_at : option string)
    (now now' : string) (c : Models.CostModel.t) :
  now <> "" ->
  Models.CostModel.__init__ float_of_str str_of id type amount currency notes created_at now
  = Ok c ->
  Models.CostModel.from_dict float_of_str' str_of' (Models.CostModel.to_dict c) now' = Ok c.
Proof.
  intros Hnow Hc. apply CostModel_from_dict_to_dict.
  exists float_of_str, str_of, id, type, amount, currency, notes, created_at, now. by split.
Qed.

(** The round trip at a concrete cost. *)
Lemma CostModel_storage_round_trip_witness :
  let c := {| Models.CostModel.id := Some 3; Models.CostModel.type := "Tool";
              Models.CostModel.amount := (1250 # 100)%Q; Models.CostModel.currency := "USD";
              Models.CostModel.notes := "licence";
              Models.CostModel.created_at := Some "2024-06-01T12:00:00" |} in
  Models.CostModel.from_dict (fun _ => None) (fun _ => "")
    (Models.CostModel.to_dict c) "2025-01-01T00:00:00" = Ok c.
Proof.
  intros c.
  apply (CostModel_storage_round_trip (fun _ => None) (fun _ => None) (fun _ => "")
           (fun _ => "") (Some 3) (VStr "Tool") (VFloat (25 # 2)) (VStr "USD")
           (VStr "licence") None "2024-06-01T12:00:00" "2025-01-01T00:00:00" c);
    [discriminate | reflexivity].
Defined.

(** [from_dict] on a dictionary without an id: a missing type or amount
    raises [KeyError]; a dictionary with a valid type and amount alone
    gives a cost in USD with empty notes, no id, and the current time as
    its creation time. *)
Theorem CostModel_from_dict_defaults (float_of_str : string -> option Q)
    (str_of : value -> string) (now : string) :
  (forall data : gmap string value,
     data !! "id" = None -> data !! "type" = None ->
     Models.CostModel.from_dict float_of_str str_of data now = Raise (KeyError "type")) /\
  (forall (data : gmap string value) ty,
     data !! "id" = None -> data !! "type" = Some ty -> data !! "amount" = None ->
     Models.CostModel.from_dict float_of_str str_of data now = Raise (KeyError "amount")) /\
  (forall (ty : string) (amount : value) (q : Q),
     ty ∈ Models.CostModel.VALID_TYPES ->
     Models.CostModel.float float_of_str amount = Ok q ->
     (0 <= q <= 1000000)%Q ->
     Models.CostModel.from_dict float_of_str str_of
       (<["type" := VStr ty]> (<["amount" := amount]> ∅)) now
     = Ok {| Models.CostModel.id := None; Models.CostModel.type := ty;
             Models.CostModel.amount := round2 q; Models.CostModel.currency := "USD";
             Models.CostModel.notes := ""; Models.CostModel.created_at := Some now |}).
Proof.
  split; [|split].
  - intros data Hid Hty. unfold Models.CostModel.from_dict, dict_getitem.
    by rewrite Hid, Hty.
  - intros data ty Hid Hty Ham. unfold Models.CostModel.from_dict, dict_getitem.
    by rewrite Hid, Hty, Ham.
  - intros ty amount q Hty Hq [Hlo Hhi].
    unfold Models.CostModel.from_dict, dict_getitem.
    set (d := <["type" := VStr ty]> _).
    assert (d !! "id" = None) as -> by reflexivity.
    assert (d !! "type" = Some (VStr ty)) as -> by reflexivity.
    assert (d !! "amount" = Some amount) as -> by reflexivity.
    assert (d !! "currency" = None) as -> by reflexivity.
    assert (d !! "notes" = None) as -> by reflexivity.
    assert (d !! "created_at" = None) as -> by reflexivity.
    cbn [default Models.CostModel.as_opt_int Models.CostModel.as_opt_str mbind result_bind].
    unfold Datatypes.id.
    cbn [Models.CostModel.as_opt_int Models.CostModel.as_opt_str mbind result_bind].
    unfold Models.CostModel.__init__, Models.CostModel._validate_type,
      Models.CostModel._validate_amount.
    assert (Hne : ty <> "") by (intros ->; revert Hty; by apply (bool_decide_unpack _)).
    apply String.eqb_neq in Hne. apply str_in_true in Hty. cbn [truthy].
    rewrite Hne, Hty, Hq. cbn [negb orb mbind result_bind].
    by rewrite (proj2 (Qltb_ge _ _) Hlo), (proj2 (Qltb_ge _ _) Hhi).
Qed.

(** The dictionary [{'type': 'Freelancer', 'amount': 80}]. *)
Lemma CostModel_from_dict_defaults_witness :
  Models.CostModel.from_dict (fun _ => None) (fun _ => "")
    (<["type" := VStr "Freelancer"]> (<["amount" := VInt 80]> ∅)) "2024-06-01T12:00:00"
  = Ok {| Models.CostModel.id := None; Models.CostModel.type := "Freelancer";
          Models.CostModel.amount := round2 (inject_Z 80); Models.CostModel.currency := "USD";
          Models.CostModel.notes := "";
          Models.CostModel.created_at := Some "2024-06-01T12:00:00" |}.
Proof.
  apply (proj2 (proj2 (CostModel_from_dict_defaults (fun _ => None) (fun _ => "")
                         "2024-06-01T12:00:00")));
    [by apply (bool_decide_unpack _) | reflexivity | split; discriminate].
Defined.

(** * The DataManager class *)

(** ** Videos *)

(** Since [from_dict] never gives a video, [get_videos] returns the empty
    list for every store.  So [add_video] always reports success and
    leaves the new video alone in the store, and [update_video] and
    [delete_video] find nothing: they return [False] and leave the store
    as it is. *)
Theorem DataManager_videos_never_loaded (self : Models.DataManager.t) :
  Models.DataManager.get_videos self = [] /\
  (forall video,
     Models.DataManager.add_video self video
     = ({| Models.DataManager.videos := Some [Models.Video.to_dict video];
           Models.DataManager.costs := Models.DataManager.costs self |}, true)) /\
  (forall video_id status type now,
     Models.DataManager.update_video self video_id status type now = (self, false)) /\
  (forall video_id, Models.DataManager.delete_video self video_id = (self, false)).
Proof.
  split; [apply get_videos_empty|]. split; [|split].
  - intros video. unfold Models.DataManager.add_video. by rewrite get_videos_empty.
  - intros. unfold Models.DataManager.update_video. by rewrite get_videos_empty.
  - intros. unfold Models.DataManager.delete_video. by rewrite get_videos_empty.
Qed.

(** ** Costs *)

Lemma from_dict_constructed float_of_str str_of data now c :
  now <> "" ->
  Models.CostModel.from_dict float_of_str str_of data now = Ok c -> constructed_cost c.
Proof.
  intros Hnow. unfold Models.CostModel.from_dict.
  destruct (Models.CostModel.as_opt_int _) as [id|]; [|discriminate].
  cbn [mbind result_bind].
  destruct (dict_getitem data "type") as [ty|]; [|discriminate]. cbn [mbind result_bind].
  destruct (dict_getitem data "amount") as [amt|]; [|discriminate]. cbn [mbind result_bind].
  destruct (Models.CostModel.as_opt_str _) as [created|]; [|discriminate].
  cbn [mbind result_bind]. intros Hc.
  eexists float_of_str, str_of, id, ty, amt, _, _, created, now. split; [exact Hnow | exact Hc].
Qed.

Lemma constructed_cost_set_id (c : Models.CostModel.t) (id : option Z) :
  constructed_cost c ->
  constructed_cost
    {| Models.CostModel.id := id; Models.CostModel.type := Models.CostModel.type c;
       Models.CostModel.amount := Models.CostModel.amount c;
       Models.CostModel.currency := Models.CostModel.currency c;
       Models.CostModel.notes := Models.CostModel.notes c;
       Models.CostModel.created_at := Models.CostModel.created_at c |}.
Proof.
  intros (f & s & id0 & ty & amt & cur & notes & created & now & Hnow & Hc).
  exists f, s, id, ty, amt, cur, notes, created, now. split; [exact Hnow|].
  unfold Models.CostModel.__init__ in *.
  destruct (Models.CostModel._validate_type ty); [|discriminate].
  destruct (Models.CostModel._validate_amount f amt); [|discriminate].
  destruct (Models.CostModel._validate_currency cur); [|discriminate].
  destruct (Models.CostModel._validate_notes s notes); [|discriminate].
  cbn [mbind result_bind] in *. by injection Hc as <-.
Qed.

Section CostStore.
Context (float_of_str : string -> option Q) (str_of : value -> string).

Lemma load_costs_saved (cs acc : list Models.CostModel.t) (now : string) :
  Forall constructed_cost cs ->
  for_ (fun costs cost_dict =>
          match Models.CostModel.from_dict float_of_str str_of cost_dict now with
          | Ok cost => Ok (costs ++ [cost])%list
          | Raise (ValidationError _) => Ok costs
          | Raise e => Raise e
          end)
       (Models.CostModel.to_dict <$> cs) acc = Ok (acc ++ cs)%list.
Proof.
  intros Hcs. revert acc. induction Hcs as [|c cs Hc _ IH]; intros acc.
  - by rewrite app_nil_r.
  - cbn [fmap list_fmap for_]. rewrite (CostModel_from_dict_to_dict c Hc).
    cbn [mbind result_bind]. rewrite IH. by rewrite <- app_assoc.
Qed.

Lemma load_costs_constructed (ds : list (gmap string value)) (acc r : list Models.CostModel.t)
    (now : string) :
  now <> "" -> Forall constructed_cost acc ->
  for_ (fun costs cost_dict =>
          match Models.CostModel.from_dict float_of_str str_of cost_dict now with
          | Ok cost => Ok (costs ++ [cost])%list
          | Raise (ValidationError _) => Ok costs
          | Raise e => Raise e
          end)
       ds acc = Ok r ->
  Forall constructed_cost r.
Proof.
  intros Hnow. revert acc. induction ds as [|d ds IH]; intros acc Hacc; cbn [for_].
  - by intros [= <-].
  - destruct (Models.CostModel.from_dict float_of_str str_of d now) as [c|e] eqn:E.
    + cbn [mbind result_bind]. apply IH. apply Forall_app. split; [done|].
      constructor; [|constructor]. by eapply from_dict_constructed.
    + destruct e; cbn [mbind result_bind]; try discriminate. by apply IH.
Qed.

Lemma get_costs_constructed (self : Models.DataManager.t) (now : string) :
  now <> "" ->
  Forall constructed_cost (Models.DataManager.get_costs float_of_str str_of self now).
Proof.
  intros Hnow. unfold Models.DataManager.get_costs.
  destruct (for_ _ _ _) as [r|e] eqn:E; [|constructor].
  eapply load_costs_constructed; [exact Hnow | constructor | exact E].
Qed.

Lemma get_costs_after_save (self : Models.DataManager.t) (cs : list Models.CostModel.t)
    (now : string) :
  Forall constructed_cost cs ->
  Models.DataManager.get_costs float_of_str str_of
    (fst (Models.DataManager.save_costs self cs)) now = cs.
Proof.
  intros Hcs. unfold Models.DataManager.get_costs, Models.DataManager.save_costs.
  cbn [fst Models.DataManager.costs default]. unfold Datatypes.id.
  by rewrite (load_costs_saved cs [] now Hcs).
Qed.

(** Costs built by the constructor that are saved are read back as they
    were, whatever the clock shows at the time of reading. *)
Theorem save_costs_get_costs (self : Models.DataManager.t) (cs : list Models.CostModel.t)
    (now : string) :
  Forall constructed_cost cs ->
  Models.DataManager.save_costs self cs
  = ({| Models.DataManager.videos := Models.DataManager.videos self;
        Models.DataManager.costs := Some (Models.CostModel.to_dict <$> cs) |}, true) /\
  Models.DataManager.get_costs float_of_str str_of
    (fst (Models.DataManager.save_costs self cs)) now = cs.
Proof.
  intros Hcs. split; [reflexivity | by apply get_costs_after_save].
Qed.

Lemma max_default_ge (ids : list Z) (z : Z) :
  z ∈ ids -> z <= Models.DataManager.max_default ids.
Proof.
  destruct ids as [|a ids]; [by intros ?%elem_of_nil|]. cbn [Models.DataManager.max_default].
  assert (G : forall l x, x <= foldl Z.max x l /\ forall y, y ∈ l -> y <= foldl Z.max x l).
  { induction l as [|b l IH]; intros x; cbn [foldl].
    - split; [lia|]. by intros y ?%elem_of_nil.
    - destruct (IH (Z.max x b)) as [H1 H2]. split; [lia|].
      intros y [->|Hy]%elem_of_cons; [lia | by apply H2]. }
  destruct (G ids a) as [H1 H2]. intros [->|Hz]%elem_of_cons; [exact H1 | by apply H2].
Qed.

(** [add_cost] with a cost built by the constructor reports success and
    appends it to the costs that the store gives back, leaving the videos
    alone.  A cost without an id gets one that no stored cost has; a cost
    with an id keeps it. *)
Theorem add_cost_appends (self : Models.DataManager.t) (cost : Models.CostModel.t)
    (now now' : string) :
  now <> "" -> constructed_cost cost ->
  let loaded := Models.DataManager.get_costs float_of_str str_of self now in
  let added := Models.DataManager.with_generated_id loaded cost in
  let after := Models.DataManager.add_cost float_of_str str_of self cost now in
  snd after = true /\
  Models.DataManager.videos (fst after) = Models.DataManager.videos self /\
  Models.DataManager.get_costs float_of_str str_of (fst after) now' = (loaded ++ [added])%list /\
  (Models.CostModel.id cost = None ->
   exists z, Models.CostModel.id added = Some z /\
     forall c, c ∈ loaded -> Models.CostModel.id c <> Some z) /\
  (Models.CostModel.id cost <> None -> added = cost).
Proof.
  intros Hnow Hcost loaded added after.
  assert (Hadded : constructed_cost added).
  { unfold added, Models.DataManager.with_generated_id.
    destruct (Models.CostModel.id cost); [done|]. by apply constructed_cost_set_id. }
  split; [reflexivity|]. split; [reflexivity|]. split; [|split].
  - unfold after, Models.DataManager.add_cost. fold loaded. fold added.
    apply get_costs_after_save. apply Forall_app. split.
    + by apply get_costs_constructed.
    + by repeat constructor.
  - intros Hnone. unfold added, Models.DataManager.with_generated_id. rewrite Hnone.
    eexists. split; [reflexivity|]. intros c Hc Hid.
    assert (Hin : Models.DataManager.max_default (omap Models.CostModel.id loaded) + 1
                  ∈ omap Models.CostModel.id loaded).
    { apply list_elem_of_omap. by exists c. }
    apply max_default_ge in Hin. lia.
  - intros Hsome. unfold added, Models.DataManager.with_generated_id.
    by destruct (Models.CostModel.id cost).
Qed.

(** [delete_cost] returns [False] and leaves the store as it is when no
    stored cost has the id; otherwise it reports success and the store
    then gives back the other costs, in their order. *)
Theorem delete_cost_spec (self : Models.DataManager.t) (cost_id : Z) (now now' : string) :
  now <> "" ->
  let loaded := Models.DataManager.get_costs float_of_str str_of self now in
  let after := Models.DataManager.delete_cost float_of_str str_of self cost_id now in
  ((forall c, c ∈ loaded -> Models.CostModel.id c <> Some cost_id) -> after = (self, false)) /\
  ((exists c, c ∈ loaded /\ Models.CostModel.id c = Some cost_id) ->
   snd after = true /\
   Models.DataManager.get_costs float_of_str str_of (fst after) now'
   = filter (fun c => Models.CostModel.id c <> Some cost_id) loaded).
Proof.
  intros Hnow loaded after.
  set (keep := fun c : Models.CostModel.t =>
                 negb (bool_decide (Models.CostModel.id c = Some cost_id))).
  assert (Hfilter : List.filter keep loaded
                    = filter (fun c => Models.CostModel.id c <> Some cost_id) loaded).
  { induction loaded as [|c l IH]; [done|]. cbn [List.filter]. rewrite filter_cons.
    unfold keep at 1. destruct (decide (Models.CostModel.id c = Some cost_id)) as [E|E].
    - rewrite bool_decide_true by done. rewrite decide_False by (by intros ?). exact IH.
    - rewrite bool_decide_false by done. rewrite decide_True by done. cbn [negb].
      by rewrite IH. }
  assert (Hlen : length (List.filter keep loaded) = length loaded <->
                 forall c, c ∈ loaded -> Models.CostModel.id c <> Some cost_id).
  { rewrite length_filter_all, Forall_forall. apply forall_proper. intros c.
    unfold keep. rewrite negb_true_iff, bool_decide_eq_false. tauto. }
  pose proof (length_filter_le keep loaded) as Hle.
  unfold after, Models.DataManager.delete_cost. fold loaded. fold keep. split.
  - intros Hnone. pose proof (proj2 Hlen Hnone) as Heq. rewrite Heq.
    by rewrite (proj2 (Nat.ltb_ge _ _)) by lia.
  - intros (c & Hc & Hid).
    assert (Hlt : (length (List.filter keep loaded) < length loaded)%nat).
    { destruct (decide (length (List.filter keep loaded) = length loaded)) as [E|E]; [|lia].
      pose proof (proj1 Hlen E c Hc) as Hne. by destruct Hne. }
    rewrite (proj2 (Nat.ltb_lt _ _) Hlt). split; [reflexivity|].
    rewrite <- Hfilter. apply get_costs_after_save.
    rewrite Hfilter. apply Forall_forall. intros x [_ Hx]%list_elem_of_filter.
    revert x Hx. apply Forall_forall. by apply get_costs_constructed.
Qed.
End CostStore.

(** A store in which one cost with the id 3 was saved; a cost without an
    id is added and gets an id that is not 3; the id 9 is not found. *)
Lemma save_costs_get_costs_witness :
  let c3 := {| Models.CostModel.id := Some 3; Models.CostModel.type := "Tool";
               Models.CostModel.amount := (1250 # 100)%Q; Models.CostModel.currency := "USD";
               Models.CostModel.notes := "licence";
               Models.CostModel.created_at := Some "2024-06-01T12:00:00" |} in
  let empty := {| Models.DataManager.videos := None; Models.DataManager.costs := None |} in
  Models.DataManager.get_costs (fun _ => None) (fun _ => "")
    (fst (Models.DataManager.save_costs empty [c3])) "2025-01-01T00:00:00" = [c3].
Proof.
  intros c3 empty.
  apply (save_costs_get_costs (fun _ => None) (fun _ => "") empty [c3] "2025-01-01T00:00:00").
  constructor; [|constructor].
  exists (fun _ => None), (fun _ => ""), (Some 3), (VStr "Tool"), (VFloat (25 # 2)),
    (VStr "USD"), (VStr "licence"), None, "2024-06-01T12:00:00".
  split; [discriminate | reflexivity].
Defined.

Lemma add_cost_appends_witness :
  let c3 := {| Models.CostModel.id := Some 3; Models.CostModel.type := "Tool";
               Models.CostModel.amount := (1250 # 100)%Q; Models.CostModel.currency := "USD";
               Models.CostModel.notes := "licence";
               Models.CostModel.created_at := Some "2024-06-01T12:00:00" |} in
  let new := {| Models.CostModel.id := None; Models.CostModel.type := "Other";
                Models.CostModel.amount := (700 # 100)%Q; Models.CostModel.currency := "PKR";
                Models.CostModel.notes := "";
                Models.CostModel.created_at := Some "2024-06-02T08:00:00" |} in
  let store := {| Models.DataManager.videos := None;
                  Models.DataManager.costs := Some [Models.CostModel.to_dict c3] |} in
  let loaded := Models.DataManager.get_costs (fun _ => None) (fun _ => "") store "2024-06-02" in
  exists z,
    Models.CostModel.id (Models.DataManager.with_generated_id loaded new) = Some z /\
    forall c, c ∈ loaded -> Models.CostModel.id c <> Some z.
Proof.
  intros c3 new store loaded.
  apply (add_cost_appends (fun _ => None) (fun _ => "") store new "2024-06-02" "2024-06-03");
    [discriminate | | reflexivity].
  exists (fun _ => None), (fun _ => ""), None, (VStr "Other"), (VFloat 7),
    (VStr "PKR"), (VStr ""), (Some "2024-06-02T08:00:00"), "2024-06-02".
  split; [discriminate | reflexivity].
Defined.

Lemma delete_cost_spec_witness :
  let c3 := {| Models.CostModel.id := Some 3; Models.CostModel.type := "Tool";
               Models.CostModel.amount := (1250 # 100)%Q; Models.CostModel.currency := "USD";
               Models.CostModel.notes := "licence";
               Models.CostModel.created_at := Some "2024-06-01T12:00:00" |} in
  let store := {| Models.DataManager.videos := None;
                  Models.DataManager.costs := Some [Models.CostModel.to_dict c3] |} in
  Models.DataManager.delete_cost (fun _ => None) (fun _ => "") store 9 "2024-06-02"
  = (store, false).
Proof.
  intros c3 store.
  apply (delete_cost_spec (fun _ => None) (fun _ => "") store 9 "2024-06-02" "2024-06-03");
    [discriminate|].
  intros c Hc. change (c ∈ [c3]) in Hc.
  apply elem_of_cons in Hc as [->|Hc]; [discriminate | by apply elem_of_nil in Hc].
Defined.

(** * The form handlers *)

(** ** A handler that flashes an error has written nothing *)

(** Each of the five writing handlers flashes either an error or a
    success, and after an error the database is the one it started from. *)
Theorem handlers_error_unchanged
    (float_of_str : string -> option Q) (int_of_str : string -> option Z)
    (form : gmap string string) (now now' : string) (db : App.DB) :
  let unchanged_on_error (r : App.DB * App.flash) :=
    (snd (snd r) = "error" \/ snd (snd r) = "success") /\
    (snd (snd r) = "error" -> fst r = db) in
  unchanged_on_error (App.add_video form now now' db) /\
  unchanged_on_error (App.update_video_status form now db) /\
  unchanged_on_error (App.delete_video form db) /\
  unchanged_on_error (App.add_cost float_of_str form now db) /\
  unchanged_on_error (App.delete_cost int_of_str form db).
Proof.
  intros unchanged_on_error. unfold unchanged_on_error.
  unfold App.add_video, App.update_video_status, App.delete_video, App.add_cost,
    App.delete_cost.
  repeat split; repeat case_match; cbn [fst snd]; auto; intros; done.
Qed.

(** An update to a status outside the list of the video's type. *)
Lemma handlers_error_unchanged_witness :
  let db :=
    {| App.videos :=
         [ {| Database.Video.id := "b1"; Database.Video.type := "Brand";
              Database.Video.status := "VO";
              Database.Video.created_at := None; Database.Video.updated_at := None |} ];
       App.costs := [] |} in
  let form : gmap string string := {[ "video_id" := "b1"; "status" := "Avatar Creation" ]} in
  fst (App.update_video_status form "2024-03-02T09:00:00" db) = db.
Proof.
  intros db form.
  apply (handlers_error_unchanged (fun _ => None) (fun _ => None) form
           "2024-03-02T09:00:00" "2024-03-02T09:00:00" db).
  reflexivity.
Defined.

(** ** Adding a video *)

Lemma query_video_None (db : App.DB) (video_id : string) :
  App.query_video db video_id = None <-> video_id ∉ video_ids db.
Proof.
  unfold App.query_video, video_ids. induction (App.videos db) as [|v l IH]; cbn [List.find].
  - split; [intros _; apply not_elem_of_nil | done].
  - rewrite fmap_cons, not_elem_of_cons.
    destruct (String.eqb_spec (Database.Video.id v) video_id) as [E|E].
    + split; [discriminate | intros [H _]; by destruct H].
    + rewrite IH. split; [intros H; split; [congruence | done] | by intros [_ H]].
Qed.

Lemma query_video_Some (db : App.DB) (video_id : string) (v : Database.Video.t) :
  App.query_video db video_id = Some v -> v ∈ App.videos db /\ Database.Video.id v = video_id.
Proof.
  intros H. apply find_some in H as [Hin E]. apply String.eqb_eq in E.
  split; [by apply list_elem_of_In | done].
Qed.

(** [add_video] never touches the costs.  It keeps the ids of the stored
    videos distinct, and it keeps every stored video well formed.  When it
    succeeds, exactly one video has been appended: its id is the stripped
    id of the form, is not empty and was not in use, and each of its two
    timestamps is the reading of the clock that its own column default
    made. *)
Theorem add_video_keeps_invariants (form : gmap string string)
    (created_now updated_now : string) (db : App.DB) :
  let r := App.add_video form created_now updated_now db in
  App.costs (fst r) = App.costs db /\
  (NoDup (video_ids db) -> NoDup (video_ids (fst r))) /\
  (Forall well_formed_video (App.videos db) -> Forall well_formed_video (App.videos (fst r))) /\
  (snd (snd r) = "success" ->
   exists v,
     App.videos (fst r) = (App.videos db ++ [v])%list /\
     Database.Video.id v = strip (default "" (form !! "video_id")) /\
     Database.Video.id v <> "" /\ (Database.Video.id v ∉ video_ids db) /\
     well_formed_video v /\
     Database.Video.created_at v = Some created_now /\
     Database.Video.updated_at v = Some updated_now).
Proof.
  intros r. unfold r, App.add_video.
  set (video_id := strip (default "" (form !! "video_id"))).
  set (video_type := default "" (form !! "video_type")).
  set (status := default "Conceptualization & Script" (form !! "status")).
  destruct (String.eqb_spec video_id "") as [Hid|Hid]; cbn [orb];
    [by repeat split|].
  destruct (String.eqb video_type ""); [by repeat split|].
  destruct (App.query_video db video_id) as [existing|] eqn:Hq; [by repeat split|].
  destruct (str_in video_type App.VIDEO_TYPES) eqn:Hty; cbn [negb]; [|by repeat split].
  destruct (str_in status _) eqn:Hst; cbn [negb]; [|by repeat split].
  apply query_video_None in Hq. apply str_in_true in Hty, Hst.
  set (v := {| Database.Video.id := video_id; Database.Video.type := video_type;
               Database.Video.status := status;
               Database.Video.created_at := Some created_now;
               Database.Video.updated_at := Some updated_now |}).
  assert (Hv : well_formed_video v) by (by split).
  cbn [fst snd App.videos App.costs]. split; [done|]. split; [|split].
  - intros Hnodup. unfold video_ids. cbn [App.videos]. rewrite fmap_app.
    apply NoDup_app. split; [exact Hnodup|]. split.
    + intros x Hx [->|H]%elem_of_cons; [by apply Hq | by apply elem_of_nil in H].
    + apply NoDup_singleton.
  - intros Hall. apply Forall_app. split; [exact Hall|].
    constructor; [exact Hv | constructor].
  - intros _. exists v. by repeat split.
Qed.

(** A Testimonial video is added to a database that holds one video. *)
Lemma add_video_keeps_invariants_witness :
  let db :=
    {| App.videos :=
         [ {| Database.Video.id := "b1"; Database.Video.type := "Brand";
              Database.Video.status := "VO";
              Database.Video.created_at := None; Database.Video.updated_at := None |} ];
       App.costs := [] |} in
  let form : gmap string string :=
    {[ "video_id" := " t1 "; "video_type" := "Testimonial"; "status" := "Avatar Creation" ]} in
  let r := App.add_video form "2024-03-02T09:00:00.000101" "2024-03-02T09:00:00.000117" db in
  NoDup (video_ids (fst r)) /\
  exists v,
    App.videos (fst r) = (App.videos db ++ [v])%list /\ Database.Video.id v = "t1" /\
    Database.Video.created_at v = Some "2024-03-02T09:00:00.000101" /\
    Database.Video.updated_at v = Some "2024-03-02T09:00:00.000117".
Proof.
  intros db form r.
  destruct (add_video_keeps_invariants form "2024-03-02T09:00:00.000101"
              "2024-03-02T09:00:00.000117" db)
    as (_ & Hnodup & _ & Hsucc).
  split.
  - apply Hnodup. by apply (bool_decide_unpack _).
  - destruct (Hsucc eq_refl) as (v & Hv & Hid & _ & _ & _ & Hc & Hu). exists v. by repeat split.
Defined.

(** ** Updating and deleting a video *)

Section Rows.
Context (video_id : string).

Lemma update_first_ids (video : Database.Video.t) (rows : list Database.Video.t) :
  Database.Video.id video = video_id ->
  Database.Video.id <$> App.update_first video_id video rows = Database.Video.id <$> rows.
Proof.
  intros Hid. induction rows as [|v rows IH]; [done|]. cbn [App.update_first].
  destruct (String.eqb_spec (Database.Video.id v) video_id) as [E|E].
  - rewrite !fmap_cons. congruence.
  - rewrite !fmap_cons. by rewrite IH.
Qed.

Lemma update_first_find (video old : Database.Video.t) (rows : list Database.Video.t) :
  Database.Video.id video = video_id ->
  List.find (fun v => String.eqb (Database.Video.id v) video_id) rows = Some old ->
  List.find (fun v => String.eqb (Database.Video.id v) video_id)
            (App.update_first video_id video rows) = Some video.
Proof.
  intros Hid. induction rows as [|v rows IH]; [discriminate|].
  cbn [App.update_first List.find].
  destruct (String.eqb (Database.Video.id v) video_id) eqn:E.
  - intros _. cbn [List.find]. by rewrite Hid, String.eqb_refl.
  - intros H. cbn [List.find]. rewrite E. by apply IH.
Qed.

Lemma update_first_find_other (video : Database.Video.t) (rows : list Database.Video.t)
    (other : string) :
  Database.Video.id video = video_id -> other <> video_id ->
  List.find (fun v => String.eqb (Database.Video.id v) other)
            (App.update_first video_id video rows)
  = List.find (fun v => String.eqb (Database.Video.id v) other) rows.
Proof.
  intros Hid Hne. induction rows as [|v rows IH]; [done|]. cbn [App.update_first].
  destruct (String.eqb_spec (Database.Video.id v) video_id) as [E|E]; cbn [List.find].
  - rewrite Hid, E. by rewrite (proj2 (String.eqb_neq video_id other)) by done.
  - by rewrite IH.
Qed.

Lemma update_first_Forall (P : Database.Video.t -> Prop) (video : Database.Video.t)
    (rows : list Database.Video.t) :
  P video -> Forall P rows -> Forall P (App.update_first video_id video rows).
Proof.
  intros Hv. induction 1 as [|v rows Hp Hall IH]; [constructor|]. cbn [App.update_first].
  destruct (String.eqb (Database.Video.id v) video_id); by constructor.
Qed.

Lemma delete_first_find_other (rows : list Database.Video.t) (other : string) :
  other <> video_id ->
  List.find (fun v => String.eqb (Database.Video.id v) other) (App.delete_first video_id rows)
  = List.find (fun v => String.eqb (Database.Video.id v) other) rows.
Proof.
  intros Hne. induction rows as [|v rows IH]; [done|]. cbn [App.delete_first].
  destruct (String.eqb_spec (Database.Video.id v) video_id) as [E|E]; cbn [List.find].
  - rewrite E. by rewrite (proj2 (String.eqb_neq video_id other)) by done.
  - by rewrite IH.
Qed.

Lemma delete_first_length (old : Database.Video.t) (rows : list Database.Video.t) :
  List.find (fun v => String.eqb (Database.Video.id v) video_id) rows = Some old ->
  S (length (App.delete_first video_id rows)) = length rows.
Proof.
  induction rows as [|v rows IH]; [discriminate|]. cbn [App.delete_first List.find].
  destruct (String.eqb (Database.Video.id v) video_id); [done|].
  intros H. simpl. by rewrite IH.
Qed.

Lemma delete_first_gone (rows : list Database.Video.t) :
  NoDup (Database.Video.id <$> rows) ->
  List.find (fun v => String.eqb (Database.Video.id v) video_id)
            (App.delete_first video_id rows) = None.
Proof.
  induction rows as [|v rows IH]; [done|]. rewrite fmap_cons. intros [Hv Hnd]%NoDup_cons.
  cbn [App.delete_first].
  destruct (String.eqb_spec (Database.Video.id v) video_id) as [E|E].
  - apply (query_video_None {| App.videos := rows; App.costs := [] |}). by rewrite <- E.
  - cbn [List.find]. rewrite (proj2 (String.eqb_neq _ _) E). by apply IH.
Qed.

Lemma delete_first_Forall (P : Database.Video.t -> Prop) (rows : list Database.Video.t) :
  Forall P rows -> Forall P (App.delete_first video_id rows).
Proof.
  induction 1 as [|v rows Hp Hall IH]; [constructor|]. cbn [App.delete_first].
  destruct (String.eqb (Database.Video.id v) video_id); [done | by constructor].
Qed.

Lemma delete_first_NoDup (rows : list Database.Video.t) :
  NoDup (Database.Video.id <$> rows) ->
  NoDup (Database.Video.id <$> App.delete_first video_id rows).
Proof.
  induction rows as [|v rows IH]; [done|]. rewrite fmap_cons. intros [Hv Hnd]%NoDup_cons.
  cbn [App.delete_first].
  destruct (String.eqb (Database.Video.id v) video_id); [done|].
  rewrite fmap_cons. apply NoDup_cons. split; [|by apply IH].
  intros Hin. apply Hv. clear -Hin. induction rows as [|w rows IH]; [done|].
  cbn [App.delete_first] in Hin.
  destruct (String.eqb (Database.Video.id w) video_id).
  - rewrite fmap_cons. by right.
  - rewrite fmap_cons in *. apply elem_of_cons in Hin as [->|Hin]; [left | right; by apply IH].
Qed.
End Rows.

(** A status update that passes the checks changes the status and the
    update time of the addressed video and nothing else: the ids and their
    order, the other videos and the costs are as before, and the stored
    videos stay well formed. *)
Theorem update_video_status_success (form : gmap string string) (now : string) (db : App.DB)
    (video_id new_status : string) (video : Database.Video.t) :
  form !! "video_id" = Some video_id ->
  form !! "status" = Some new_status ->
  video_id <> "" ->
  App.query_video db video_id = Some video ->
  new_status ∈ (if String.eqb (Database.Video.type video) "Testimonial"
                then Database.Video.TESTIMONIAL_STATUSES else Database.Video.VALID_STATUSES) ->
  let r := App.update_video_status form now db in
  let updated :=
    {| Database.Video.id := Database.Video.id video;
       Database.Video.type := Database.Video.type video;
       Database.Video.status := new_status;
       Database.Video.created_at := Database.Video.created_at video;
       Database.Video.updated_at := Some now |} in
  snd r = ("Video status updated successfully", "success") /\
  video_ids (fst r) = video_ids db /\
  App.costs (fst r) = App.costs db /\
  App.query_video (fst r) video_id = Some updated /\
  (forall other, other <> video_id ->
     App.query_video (fst r) other = App.query_video db other) /\
  (Forall well_formed_video (App.videos db) -> Forall well_formed_video (App.videos (fst r))).
Proof.
  intros Hid Hst Hne Hq Hin r updated.
  assert (Hns : new_status <> "").
  { intros ->. destruct (String.eqb _ "Testimonial"); revert Hin;
      by apply (bool_decide_unpack _). }
  destruct (query_video_Some _ _ _ Hq) as [Hvin Hvid].
  assert (E : r = ({| App.videos := App.update_first video_id updated (App.videos db);
                      App.costs := App.costs db |},
                   ("Video status updated successfully", "success"))).
  { unfold r, App.update_video_status. rewrite Hid, Hst.
    apply String.eqb_neq in Hne, Hns. rewrite Hne, Hns. cbn [orb]. rewrite Hq.
    apply str_in_true in Hin. unfold App.VIDEO_STATUSES. by rewrite Hin. }
  rewrite E. cbn [fst snd App.videos App.costs]. split; [done|]. split; [|split; [done|]].
  { unfold video_ids. cbn [App.videos]. by apply update_first_ids. }
  split; [|split].
  - unfold App.query_video. cbn [App.videos]. by eapply update_first_find.
  - intros other Hother. unfold App.query_video. cbn [App.videos].
    by apply update_first_find_other.
  - intros Hall. apply update_first_Forall; [|exact Hall].
    rewrite Forall_forall in Hall. destruct (Hall video Hvin) as [Hty _].
    split; [exact Hty | exact Hin].
Qed.

(** A Brand video is moved from VO to Visuals. *)
Lemma update_video_status_success_witness :
  let video :=
    {| Database.Video.id := "b1"; Database.Video.type := "Brand";
       Database.Video.status := "VO";
       Database.Video.created_at := Some "2024-03-01T10:00:00";
       Database.Video.updated_at := Some "2024-03-01T10:00:00" |} in
  let db := {| App.videos := [video]; App.costs := [] |} in
  let form : gmap string string := {[ "video_id" := "b1"; "status" := "Visuals" ]} in
  App.query_video (fst (App.update_video_status form "2024-03-02T09:00:00" db)) "b1"
  = Some {| Database.Video.id := "b1"; Database.Video.type := "Brand";
            Database.Video.status := "Visuals";
            Database.Video.created_at := Some "2024-03-01T10:00:00";
            Database.Video.updated_at := Some "2024-03-02T09:00:00" |}.
Proof.
  intros video db form.
  apply (update_video_status_success form "2024-03-02T09:00:00" db "b1" "Visuals" video);
    try reflexivity; [discriminate | by apply (bool_decide_unpack _)].
Defined.

(** [delete_video] with an id that is not stored flashes an error and
    changes nothing.  With a stored id it removes one video: the other
    videos are found as before, the costs are untouched, and when the ids
    were distinct the id is no longer found. *)
Theorem delete_video_spec (form : gmap string string) (db : App.DB) (video_id : string) :
  form !! "video_id" = Some video_id -> video_id <> "" ->
  let r := App.delete_video form db in
  (App.query_video db video_id = None -> r = (db, ("Video not found", "error"))) /\
  (forall video, App.query_video db video_id = Some video ->
     snd r = ("Video deleted successfully", "success") /\
     S (length (App.videos (fst r))) = length (App.videos db) /\
     App.costs (fst r) = App.costs db /\
     (forall other, other <> video_id ->
        App.query_video (fst r) other = App.query_video db other) /\
     (NoDup (video_ids db) ->
      App.query_video (fst r) video_id = None /\ NoDup (video_ids (fst r))) /\
     (Forall well_formed_video (App.videos db) ->
      Forall well_formed_video (App.videos (fst r)))).
Proof.
  intros Hid Hne r. unfold r, App.delete_video. rewrite Hid.
  apply String.eqb_neq in Hne. rewrite Hne. split.
  - by intros ->.
  - intros video Hq. rewrite Hq. cbn [fst snd App.videos App.costs].
    split; [done|]. split; [by eapply delete_first_length|]. split; [done|].
    split; [|split].
    + intros other Hother. unfold App.query_video. cbn [App.videos].
      by apply delete_first_find_other.
    + intros Hnodup. split.
      * unfold App.query_video. cbn [App.videos]. by apply delete_first_gone.
      * unfold video_ids. cbn [App.videos]. by apply delete_first_NoDup.
    + apply delete_first_Forall.
Qed.

(** One of two videos is deleted. *)
Lemma delete_video_spec_witness :
  let video id :=
    {| Database.Video.id := id; Database.Video.type := "Brand"; Database.Video.status := "VO";
       Database.Video.created_at := None; Database.Video.updated_at := None |} in
  let db := {| App.videos := [video "b1"; video "b2"]; App.costs := [] |} in
  let form : gmap string string := {[ "video_id" := "b1" ]} in
  App.query_video (fst (App.delete_video form db)) "b1" = None /\
  App.query_video (fst (App.delete_video form db)) "b2" = Some (video "b2").
Proof.
  intros video db form.
  destruct (proj2 (delete_video_spec form db "b1" eq_refl ltac:(discriminate)) (video "b1")
              eq_refl) as (_ & _ & _ & Hother & Hgone & _).
  split.
  - apply Hgone. by apply (bool_decide_unpack _).
  - rewrite Hother; [reflexivity | discriminate].
Defined.

(** ** Adding and deleting a cost *)




Section CostRows.
Context (cost_id : Z).

Lemma delete_first_cost_find_other (rows : list Database.Cost.t) (other : Z) :
  other <> cost_id ->
  List.find (fun c => Database.Cost.id c =? other) (App.delete_first_cost cost_id rows)
  = List.find (fun c => Database.Cost.id c =? other) rows.
Proof.
  intros Hne. induction rows as [|c rows IH]; [done|]. cbn [App.delete_first_cost].
  destruct (Z.eqb_spec (Database.Cost.id c) cost_id) as [E|E]; cbn [List.find].
  - rewrite E. by rewrite (proj2 (Z.eqb_neq cost_id other)) by done.
  - by rewrite IH.
Qed.

Lemma delete_first_cost_length (old : Database.Cost.t) (rows : list Database.Cost.t) :
  List.find (fun c => Database.Cost.id c =? cost_id) rows = Some old ->
  S (length (App.delete_first_cost cost_id rows)) = length rows.
Proof.
  induction rows as [|c rows IH]; [discriminate|]. cbn [App.delete_first_cost List.find].
  destruct (Database.Cost.id c =? cost_id); [done|]. intros H. simpl. by rewrite IH.
Qed.

Lemma find_cost_None (rows : list Database.Cost.t) :
  cost_id ∉ Database.Cost.id <$> rows ->
  List.find (fun c => Database.Cost.id c =? cost_id) rows = None.
Proof.
  induction rows as [|c rows IH]; [done|]. rewrite fmap_cons.
  intros [Hne Hin]%not_elem_of_cons. cbn [List.find].
  rewrite (proj2 (Z.eqb_neq _ _)) by congruence. by apply IH.
Qed.

Lemma delete_first_cost_gone (rows : list Database.Cost.t) :
  NoDup (Database.Cost.id <$> rows) ->
  List.find (fun c => Database.Cost.id c =? cost_id) (App.delete_first_cost cost_id rows) = None.
Proof.
  induction rows as [|c rows IH]; [done|]. rewrite fmap_cons. intros [Hc Hnd]%NoDup_cons.
  cbn [App.delete_first_cost].
  destruct (Z.eqb_spec (Database.Cost.id c) cost_id) as [E|E].
  - apply find_cost_None. by rewrite <- E.
  - cbn [List.find]. rewrite (proj2 (Z.eqb_neq _ _) E). by apply IH.
Qed.
End CostRows.

(** [delete_cost] answers a missing or non-numeric id, and an id outside
    the 64 bits of a database integer, with the generic error, and any
    other id that is not stored with "not found", changing nothing.  With
    a stored id it removes one cost: the videos and the other costs are as
    before, and when the ids were distinct the id is no longer found. *)
Theorem delete_cost_handler_spec (int_of_str : string -> option Z)
    (form : gmap string string) (db : App.DB) :
  let r := App.delete_cost int_of_str form db in
  ((form !! "cost_id" ≫= int_of_str) = None ->
   r = (db, ("Error deleting cost entry", "error"))) /\
  (forall cost_id, (form !! "cost_id" ≫= int_of_str) = Some cost_id ->
     (~ - 2 ^ 63 <= cost_id < 2 ^ 63 -> r = (db, ("Error deleting cost entry", "error"))) /\
     (- 2 ^ 63 <= cost_id < 2 ^ 63 ->
      (App.query_cost db cost_id = None -> r = (db, ("Cost entry not found", "error"))) /\
      (forall cost, App.query_cost db cost_id = Some cost ->
         snd r = ("Cost entry deleted successfully", "success") /\
         App.videos (fst r) = App.videos db /\
         S (length (App.costs (fst r))) = length (App.costs db) /\
         (forall other, other <> cost_id ->
            App.query_cost (fst r) other = App.query_cost db other) /\
         (NoDup (cost_ids db) -> App.query_cost (fst r) cost_id = None)))).
Proof.
  intros r. unfold r, App.delete_cost. split.
  - by intros ->.
  - intros cost_id ->.
    assert (Hrange : App.sqlite_integer cost_id = true <-> - 2 ^ 63 <= cost_id < 2 ^ 63).
    { unfold App.sqlite_integer. rewrite andb_true_iff, Z.leb_le, Z.ltb_lt. tauto. }
    split.
    { intros Hout. destruct (App.sqlite_integer cost_id); [|reflexivity].
      destruct Hout. by apply Hrange. }
    intros Hin. rewrite (proj2 Hrange Hin). cbn [negb].
    split; [by intros ->|].
    intros cost Hq. rewrite Hq. cbn [fst snd App.videos App.costs].
    split; [done|]. split; [done|]. split; [by eapply delete_first_cost_length|]. split.
    + intros other Hother. unfold App.query_cost. cbn [App.costs].
      by apply delete_first_cost_find_other.
    + intros Hnodup. unfold App.query_cost. cbn [App.costs]. by apply delete_first_cost_gone.
Qed.

(** The cost 4 is deleted; the cost 5 stays. *)
Lemma delete_cost_handler_spec_witness :
  let int_of_str (s : string) := if String.eqb s "4" then Some 4 else None in
  let cost id :=
    {| Database.Cost.id := id; Database.Cost.type := "Other"; Database.Cost.name := None;
       Database.Cost.amount := 10; Database.Cost.currency := "USD";
       Database.Cost.notes := ""; Database.Cost.created_at := None |} in
  let db := {| App.videos := []; App.costs := [cost 4; cost 5] |} in
  let form : gmap string string := {[ "cost_id" := "4" ]} in
  App.query_cost (fst (App.delete_cost int_of_str form db)) 4 = None /\
  App.query_cost (fst (App.delete_cost int_of_str form db)) 5 = Some (cost 5).
Proof.
  intros int_of_str cost db form.
  destruct (proj2 (proj2 (proj2 (delete_cost_handler_spec int_of_str form db) 4 eq_refl)
                           ltac:(lia)) (cost 4) eq_refl) as (_ & _ & _ & Hother & Hgone).
  split.
  - apply Hgone. by apply (bool_decide_unpack _).
  - rewrite Hother; [reflexivity | discriminate].
Defined.

(** ** The budget setting *)

Section BudgetFacts.
Context (float_of_str : string -> option Q) (str_of_float : Q -> string).

Lemma update_first_budget_spec (setting old : Database.Settings.t)
    (rows : list Database.Settings.t) :
  Database.Settings.key setting = "budget" ->
  App.query_budget rows = Some old ->
  App.query_budget (App.update_first_budget setting rows) = Some setting /\
  length (App.update_first_budget setting rows) = length rows /\
  List.filter (fun st => negb (String.eqb (Database.Settings.key st) "budget"))
              (App.update_first_budget setting rows)
  = List.filter (fun st => negb (String.eqb (Database.Settings.key st) "budget")) rows.
Proof.
  intros Hkey. unfold App.query_budget.
  induction rows as [|st rows IH]; [discriminate|].
  cbn [App.update_first_budget List.find List.filter].
  destruct (String.eqb (Database.Settings.key st) "budget") eqn:E; cbn [negb].
  - intros _. cbn [List.find List.filter length]. rewrite Hkey. by cbn.
  - intros H. destruct (IH H) as (H1 & H2 & H3).
    cbn [List.find List.filter length]. rewrite E. cbn [negb]. by rewrite H1, H2, H3.
Qed.

Lemma query_budget_app_None (rows : list Database.Settings.t) (setting : Database.Settings.t) :
  App.query_budget rows = None -> Database.Settings.key setting = "budget" ->
  App.query_budget (rows ++ [setting]) = Some setting /\
  List.filter (fun st => negb (String.eqb (Database.Settings.key st) "budget"))
              (rows ++ [setting])
  = List.filter (fun st => negb (String.eqb (Database.Settings.key st) "budget")) rows.
Proof.
  intros Hq Hkey. unfold App.query_budget in *.
  induction rows as [|st rows IH]; cbn [app List.find List.filter] in *.
  - rewrite Hkey. by cbn.
  - destruct (String.eqb (Database.Settings.key st) "budget"); [discriminate|].
    cbn [negb]. destruct (IH Hq) as [H1 H2]. by rewrite H1, H2.
Qed.

(** Without a budget row, or with one whose value is no number, the
    budget reads as 0.  [update_budget] refuses a text that is no number
    and a negative number, changing nothing.  Otherwise the budget row,
    created if there was none, holds the text of the number and the current
    time, the rows of the other settings are as before, and the budget
    reads back as the number whenever its text converts back to it. *)
Theorem update_budget_spec (form : gmap string string) (now : string)
    (settings : list Database.Settings.t) :
  let parsed := match form !! "budget" with Some s => float_of_str s | None => Some 0%Q end in
  let r := App.update_budget float_of_str str_of_float form now settings in
  (App.query_budget settings = None -> App.get_budget float_of_str settings = 0%Q) /\
  (forall setting, App.query_budget settings = Some setting ->
     float_of_str (Database.Settings.value setting) = None ->
     App.get_budget float_of_str settings = 0%Q) /\
  (parsed = None -> r = (settings, ("Invalid budget amount", "error"))) /\
  (forall b, parsed = Some b -> (b < 0)%Q ->
     r = (settings, ("Budget cannot be negative", "error"))) /\
  (forall b, parsed = Some b -> (0 <= b)%Q ->
     snd r = ("Budget updated successfully", "success") /\
     (exists setting,
        App.query_budget (fst r) = Some setting /\
        Database.Settings.value setting = str_of_float b /\
        Database.Settings.updated_at setting = Some now) /\
     List.filter (fun st => negb (String.eqb (Database.Settings.key st) "budget")) (fst r)
     = List.filter (fun st => negb (String.eqb (Database.Settings.key st) "budget")) settings /\
     (float_of_str (str_of_float b) = Some b -> App.get_budget float_of_str (fst r) = b)).
Proof.
  intros parsed r. unfold r, App.update_budget. fold parsed.
  split; [|split; [|split; [|split]]].
  - intros Hq. unfold App.get_budget. by rewrite Hq.
  - intros setting Hq Hval. unfold App.get_budget. by rewrite Hq, Hval.
  - by intros ->.
  - intros b -> Hneg. apply Qltb_lt in Hneg. by rewrite Hneg.
  - intros b -> Hpos. apply Qltb_ge in Hpos. rewrite Hpos. cbn [fst snd].
    split; [done|].
    assert (G : exists setting,
              App.query_budget (App.save_budget str_of_float b now settings) = Some setting /\
              Database.Settings.value setting = str_of_float b /\
              Database.Settings.updated_at setting = Some now /\
              List.filter (fun st => negb (String.eqb (Database.Settings.key st) "budget"))
                          (App.save_budget str_of_float b now settings)
              = List.filter (fun st => negb (String.eqb (Database.Settings.key st) "budget"))
                            settings).
    { unfold App.save_budget. destruct (App.query_budget settings) as [old|] eqn:Hq.
      - assert (Hkey : Database.Settings.key old = "budget").
        { unfold App.query_budget in Hq. apply find_some in Hq as [_ Hk].
          by apply String.eqb_eq. }
        eexists. destruct (update_first_budget_spec
          {| Database.Settings.id := Database.Settings.id old;
             Database.Settings.key := Database.Settings.key old;
             Database.Settings.value := str_of_float b;
             Database.Settings.updated_at := Some now |} old settings Hkey Hq)
          as (H1 & _ & H3).
        split; [exact H1|]. by repeat split.
      - eexists. destruct (query_budget_app_None settings
          {| Database.Settings.id := 1 + foldr Z.max 0 (Database.Settings.id <$> settings);
             Database.Settings.key := "budget";
             Database.Settings.value := str_of_float b;
             Database.Settings.updated_at := Some now |} Hq eq_refl) as (H1 & H2).
        split; [exact H1|]. by repeat split. }
    destruct G as (setting & Hq & Hval & Hupd & Hrest).
    split; [by exists setting|]. split; [exact Hrest|].
    intros Hround. unfold App.get_budget. by rewrite Hq, Hval, Hround.
Qed.
End BudgetFacts.

(** A budget of 250 is saved over a budget of 100; the text converts back. *)
Lemma update_budget_spec_witness :
  let float_of_str (s : string) := if String.eqb s "250" then Some 250%Q else None in
  let str_of_float (q : Q) := if Qeq_bool q 250 then "250" else "?" in
  let settings :=
    [ {| Database.Settings.id := 1; Database.Settings.key := "budget";
         Database.Settings.value := "100"; Database.Settings.updated_at := None |} ] in
  let form : gmap string string := {[ "budget" := "250" ]} in
  App.get_budget float_of_str
    (fst (App.update_budget float_of_str str_of_float form "2024-03-02T09:00:00" settings))
  = 250%Q.
Proof.
  intros float_of_str str_of_float settings form.
  apply (update_budget_spec float_of_str str_of_float form "2024-03-02T09:00:00" settings);
    [reflexivity | discriminate | reflexivity].
Defined.

(** ** The dashboard figures *)

Lemma foldl_insert_lookup {V} (f : string -> V) (keys : list string) (m : gmap string V)
    (k : string) :
  foldl (fun m k => <[k := f k]> m) m keys !! k
  = if decide (k ∈ keys) then Some (f k) else m !! k.
Proof.
  revert m. induction keys as [|k' keys IH]; intros m; cbn [foldl].
  - by rewrite decide_False by apply not_elem_of_nil.
  - rewrite IH. destruct (decide (k ∈ keys)) as [Hin|Hin].
    + by rewrite decide_True by (by right).
    + destruct (decide (k = k')) as [->|Hne].
      * rewrite lookup_insert_eq. by rewrite decide_True by left.
      * rewrite lookup_insert_ne by done.
        by rewrite decide_False by (intros [?|?]%elem_of_cons; done).
Qed.

(** On the dashboard the pending videos are the total less the completed
    ones and are never negative, the completed ones are the entry Final of
    the status counts, and the type counts have exactly the four video
    types as keys, each with the number of videos of that type; videos of
    any other type are left out of the type counts. *)
Theorem index_figures (db : App.DB) :
  let d := App.index db in
  App.total_videos d = Z.of_nat (length (App.videos db)) /\
  App.pending_videos d = App.total_videos d - App.completed_videos d /\
  0 <= App.completed_videos d <= App.total_videos d /\
  App.status_counts d !! "Final" = Some (App.completed_videos d) /\
  (forall ty, App.type_counts d !! ty =
     if decide (ty ∈ Database.Video.VALID_TYPES)
     then Some (Z.of_nat (length
            (filter (fun v => Database.Video.type v = ty) (App.videos db))))
     else None).
Proof.
  intros d. unfold d, App.index.
  cbn [App.total_videos App.pending_videos App.completed_videos App.status_counts
       App.type_counts].
  split; [done|]. split; [done|]. split; [|split].
  - pose proof (length_filter_le
      (fun v => String.eqb (Database.Video.status v) "Final") (App.videos db)). lia.
  - rewrite set_fold_status_counts. by rewrite decide_True by (by apply (bool_decide_unpack _)).
  - intros ty.
    rewrite (foldl_insert_lookup
      (fun vtype => Z.of_nat (length (List.filter
         (fun v => String.eqb (Database.Video.type v) vtype) (App.videos db))))).
    unfold App.VIDEO_TYPES. rewrite lookup_empty. case_decide; [|done].
    by rewrite length_filter_eqb.
Qed.

(** Two Brand videos, one of them at Final. *)
Lemma index_figures_witness :
  let video id st :=
    {| Database.Video.id := id; Database.Video.type := "Brand"; Database.Video.status := st;
       Database.Video.created_at := None; Database.Video.updated_at := None |} in
  let db := {| App.videos := [video "a" "Final"; video "b" "VO"]; App.costs := [] |} in
  App.status_counts (App.index db) !! "Final" = Some 1 /\
  App.type_counts (App.index db) !! "Brand" = Some 2 /\
  App.type_counts (App.index db) !! "Other" = None.
Proof.
  intros video db. destruct (index_figures db) as (_ & _ & _ & Hfinal & Htypes).
  split; [exact Hfinal|]. split; rewrite Htypes; reflexivity.
Defined.
